(** * The CORS forwarding proxy of chroma-viewer (proxy-server.py)

    A shallow embedding of [CORSProxyHandler] and of the start-up code of
    [main], followed by the properties of the forwarding pipeline.

    Conventions.
    - Header names and values are the [str] objects that http.server and
      http.client produce by decoding ISO-8859-1, one character per byte:
      they are [string]s.  The e-mail header parser only accepts printable
      ASCII in a header name, so ASCII case mapping is exact on names.
    - Texts of exceptions are arbitrary Python [str]s: lists of code points.
    - Request and response bodies are [bytes]: lists of [byte].
    - What the handler writes to the client is kept structured: a response
      head (status line and header lines, flushed by [end_headers]) or a
      chunk of body bytes.
    - The calls into the Python library are modelled by their documented
      behaviour for the HTTP/1.x request being served.  The client socket
      is a reliable sink; [print] and the request log are not modelled. *)

From Stdlib Require Import ZArith NArith String Ascii List Lia.
From Stdlib.Strings Require Import Byte.
From stdpp Require Import base option list gmap strings fin_maps pretty.

Open Scope Z_scope.

(** ** Python values *)

Definition bytes : Type := list byte.
Definition pystr : Type := list N.
Definition header : Type := (string * string)%type.

Definition code_points (s : string) : pystr :=
  map (fun c => N_of_ascii c) (list_ascii_of_string s).

(** [str.lower] and [str.capitalize] on ASCII text. *)
Definition lower_char (c : ascii) : ascii :=
  let n := nat_of_ascii c in
  if ((65 <=? n)%nat && (n <=? 90)%nat)%bool then ascii_of_nat (n + 32) else c.

Definition upper_char (c : ascii) : ascii :=
  let n := nat_of_ascii c in
  if ((97 <=? n)%nat && (n <=? 122)%nat)%bool then ascii_of_nat (n - 32) else c.

Fixpoint lower (s : string) : string :=
  match s with
  | EmptyString => EmptyString
  | String c r => String (lower_char c) (lower r)
  end.

Definition capitalize (s : string) : string :=
  match s with
  | EmptyString => EmptyString
  | String c r => String (upper_char c) (lower r)
  end.

(** [str(n)], also what an f-string renders, for an [int]. *)
Definition str_of_int (n : Z) : string := pretty n.

(** [Message.get(name)]: the value of the first header whose name matches
    case-insensitively, [None] when there is none. *)
Fixpoint Message_get (name : string) (hs : list header) : option string :=
  match hs with
  | [] => None
  | (n, v) :: r =>
      if decide (lower n = lower name) then Some v else Message_get name r
  end.

(** *** [int(s)] in base 10

    Surrounding white space is dropped (tab to carriage return, space, and
    the two ISO-8859-1 spaces 0x85 and 0xA0), one sign is allowed, then
    digits with single underscores between them; more than
    [int_max_str_digits] digits are refused.  [None] stands for the
    [ValueError]. *)
Definition is_space (c : ascii) : bool :=
  let n := nat_of_ascii c in
  ((9 <=? n)%nat && (n <=? 13)%nat) || (n =? 32)%nat
  || (n =? 133)%nat || (n =? 160)%nat.

Definition digit_value (c : ascii) : option Z :=
  let n := nat_of_ascii c in
  if ((48 <=? n)%nat && (n <=? 57)%nat)%bool then Some (Z.of_nat (n - 48)) else None.

Definition underscore : ascii := "_"%char.

Fixpoint lstrip (l : list ascii) : list ascii :=
  match l with
  | c :: r => if is_space c then lstrip r else l
  | [] => []
  end.

Definition strip (l : list ascii) : list ascii := rev (lstrip (rev (lstrip l))).

(** [scan_digits prev acc cnt l]: [prev] tells whether the character just
    read was a digit; [cnt] counts the digits read. *)
Fixpoint scan_digits (prev_digit : bool) (acc : Z) (cnt : nat) (l : list ascii)
  : option (Z * nat) :=
  match l with
  | [] => if prev_digit then Some (acc, cnt) else None
  | c :: r =>
      match digit_value c with
      | Some d => scan_digits true (10 * acc + d) (S cnt) r
      | None =>
          if (Ascii.eqb c underscore && prev_digit)%bool
          then scan_digits false acc cnt r
          else None
      end
  end.

Definition int_max_str_digits : nat := 4300.

Definition py_int (s : string) : option Z :=
  let body := strip (list_ascii_of_string s) in
  let '(neg, digits) :=
    match body with
    | c :: r =>
        if Ascii.eqb c "-"%char then (true, r)
        else if Ascii.eqb c "+"%char then (false, r)
        else (false, body)
    | [] => (false, [])
    end in
  match scan_digits false 0 0 digits with
  | Some (v, cnt) =>
      if (cnt <=? int_max_str_digits)%nat
      then Some (if neg then - v else v)
      else None
  | None => None
  end.

(** *** [json.dumps] of a dict with two string entries, then [.encode()] *)
Definition dquote : ascii := "034"%char.
Definition backslash : ascii := "092"%char.

Definition hex_digit (n : N) : ascii :=
  if (n <? 10)%N then ascii_of_N (48 + n) else ascii_of_N (87 + n).

(** The escape of a code point below 0x10000: backslash, u, four lower-case
    hexadecimal digits. *)
Definition u_escape (n : N) : list ascii :=
  [backslash; "u"%char;
   hex_digit (N.land (N.shiftr n 12) 15); hex_digit (N.land (N.shiftr n 8) 15);
   hex_digit (N.land (N.shiftr n 4) 15); hex_digit (N.land n 15)].

(** One code point under [ensure_ascii]: the double quote, the backslash
    and everything outside the range from space to tilde are escaped;
    code points above 0xFFFF become a surrogate pair. *)
Definition json_escape_char (n : N) : list ascii :=
  if (n =? 34)%N then [backslash; dquote]
  else if (n =? 92)%N then [backslash; backslash]
  else if (n =? 10)%N then [backslash; "n"%char]
  else if (n =? 13)%N then [backslash; "r"%char]
  else if (n =? 9)%N then [backslash; "t"%char]
  else if (n =? 12)%N then [backslash; "f"%char]
  else if (n =? 8)%N then [backslash; "b"%char]
  else if ((32 <=? n)%N && (n <=? 126)%N)%bool then [ascii_of_N n]
  else if (n <? 65536)%N then u_escape n
  else
    let m := (n - 65536)%N in
    u_escape (N.lor 55296 (N.land (N.shiftr m 10) 1023))
    ++ u_escape (N.lor 56320 (N.land m 1023)).

Definition json_string (s : pystr) : list ascii :=
  dquote :: concat (map json_escape_char s) ++ [dquote].

(** [json.dumps({k1: v1, k2: v2})] with the default separators. *)
Definition json_dumps2 (k1 v1 k2 v2 : pystr) : list ascii :=
  list_ascii_of_string "{" ++ json_string k1 ++ list_ascii_of_string ": "
  ++ json_string v1 ++ list_ascii_of_string ", " ++ json_string k2
  ++ list_ascii_of_string ": " ++ json_string v2 ++ list_ascii_of_string "}".

(** [str.encode()]: UTF-8; the text [json.dumps] returns is printable
    ASCII, one byte per character. *)
Definition encode (l : list ascii) : bytes := map byte_of_ascii l.

Definition printable (c : ascii) : bool :=
  ((32 <=? nat_of_ascii c)%nat && (nat_of_ascii c <=? 126)%nat)%bool.

Definition error_body (err msg : pystr) : bytes :=
  encode (json_dumps2 (code_points "error") err (code_points "message") msg).

(** ** Exceptions, the origin and the environment *)

(** What [read()] on a response (or on the request stream) does. *)
Inductive read_result :=
| ReadOk (b : bytes)
| ReadRaises (text : pystr).

(** The exceptions that reach the handlers of [proxy_request]:
    [urllib.error.HTTPError] with its code, reason and body stream, and any
    other [Exception], of which only [str(e)] is used. *)
Inductive exn :=
| HTTPError (code : Z) (reason : string) (fp : read_result)
| OtherException (text : pystr).

(** The object [urlopen] returns. *)
Record Response := {
  getcode : Z;
  response_headers : list header;
  response_read : read_result
}.

(** [urllib.request.Request]: [full_url] is the value of its property of
    that name, [selector] the request-target that urllib puts on the
    request line for it, and its [headers] attribute is a dict. *)
Record Request := {
  full_url : string;
  selector : string;
  data : option bytes;
  method : string;
  req_headers : gmap string string
}.

Inductive urlopen_result :=
| Returns (r : Response)
| Raises (e : exn).

(** A complete HTTP response of the origin as [urlopen] hands it over:
    urllib's error processor returns it when the status is 2xx and raises
    [HTTPError] otherwise (redirects that urllib follows by itself never
    reach the caller and are no final answer in this sense). *)
Definition http_response (code : Z) (reason : string) (hs : list header)
    (body : bytes) : urlopen_result :=
  if ((200 <=? code) && (code <? 300))%bool
  then Returns {| getcode := code; response_headers := hs;
                  response_read := ReadOk body |}
  else Raises (HTTPError code reason (ReadOk body)).

(** What lies outside the repository: the origin behind [urlopen], the
    client's stream behind [rfile.read], the Server and Date values that
    [send_response] writes, and the text of the [ValueError] of [int]. *)
Record Env := {
  urlopen : Request -> urlopen_result;
  rfile_read : Z -> read_result;
  version_string : string;
  date_time_string : string;
  int_error_text : string -> pystr
}.

(** The handler instance: configuration and the parsed request. *)
Record CORSProxyHandler := {
  target_host : string;
  target_port : Z;
  command : string;
  path : string;
  headers : list header
}.

(** ** What the handler writes and whom it contacts *)

Inductive hline :=
| StatusLine (code : Z)
| HeaderLine (name value : string).

Inductive chunk :=
| Head (lines : list hline)
| Body (b : bytes).

(** The state of a handler: the header lines in the buffer, what was
    written to the client, and the Requests handed to [urlopen] so far. *)
Record hstate := {
  headers_buffer : list hline;
  wfile : list chunk;
  contacted : list Request
}.

Definition initial : hstate :=
  {| headers_buffer := []; wfile := []; contacted := [] |}.

(** A state monad with exceptions; what was written before an exception
    stays written. *)
Inductive outcome (A : Type) :=
| Done (a : A)
| Raised (e : exn).
Arguments Done {A} a.
Arguments Raised {A} e.

Definition M (A : Type) : Type := hstate -> outcome A * hstate.

Definition ret {A} (a : A) : M A := fun s => (Done a, s).
Definition raise {A} (e : exn) : M A := fun s => (Raised e, s).
Definition bind {A B} (m : M A) (k : A -> M B) : M B :=
  fun s => match m s with
           | (Done a, s') => k a s'
           | (Raised e, s') => (Raised e, s')
           end.
Definition try_except {A} (m : M A) (handler : exn -> M A) : M A :=
  fun s => match m s with
           | (Done a, s') => (Done a, s')
           | (Raised e, s') => handler e s'
           end.

Declare Scope py_scope.
Delimit Scope py_scope with py.
Notation "x <- m ;; k" := (bind m (fun x => k))
  (at level 100, m at next level, right associativity) : py_scope.
Notation "m ;;; k" := (bind m (fun _ => k))
  (at level 100, right associativity) : py_scope.
Open Scope py_scope.

Fixpoint for_each {A} (l : list A) (body : A -> M unit) : M unit :=
  match l with
  | [] => ret tt
  | a :: r => body a ;;; for_each r body
  end.

Definition lift_read (r : read_result) : M bytes :=
  match r with
  | ReadOk b => ret b
  | ReadRaises text => raise (OtherException text)
  end.

(** *** The methods of [BaseHTTPRequestHandler] that the proxy calls *)

Definition send_header (name value : string) : M unit :=
  fun s => (Done tt, {| headers_buffer := headers_buffer s ++ [HeaderLine name value];
                        wfile := wfile s; contacted := contacted s |}).

Definition send_response_only (code : Z) : M unit :=
  fun s => (Done tt, {| headers_buffer := headers_buffer s ++ [StatusLine code];
                        wfile := wfile s; contacted := contacted s |}).

(** [send_response]: the status line, then the Server and Date headers. *)
Definition send_response (env : Env) (code : Z) : M unit :=
  send_response_only code ;;;
  send_header "Server" (version_string env) ;;;
  send_header "Date" (date_time_string env).

(** [end_headers]: the buffered head is flushed to the client. *)
Definition end_headers : M unit :=
  fun s => (Done tt, {| headers_buffer := [];
                        wfile := wfile s ++ [Head (headers_buffer s)];
                        contacted := contacted s |}).

Definition wfile_write (b : bytes) : M unit :=
  fun s => (Done tt, {| headers_buffer := headers_buffer s;
                        wfile := wfile s ++ [Body b];
                        contacted := contacted s |}).

(** *** What [urllib.request.Request] does with its URL

    The setter of [full_url] unwraps the URL, cuts it at its last [#] and
    splits the rest into type, host and selector. *)

(** White space in the sense of [str.strip]. *)
Definition is_unicode_space (c : ascii) : bool :=
  let n := nat_of_ascii c in
  ((9 <=? n)%nat && (n <=? 13)%nat) || ((28 <=? n)%nat && (n <=? 32)%nat)
  || (n =? 133)%nat || (n =? 160)%nat.

Fixpoint lstrip_unicode (l : list ascii) : list ascii :=
  match l with
  | c :: r => if is_unicode_space c then lstrip_unicode r else l
  | [] => []
  end.

Fixpoint rstrip_unicode (l : list ascii) : list ascii :=
  match l with
  | [] => []
  | c :: r =>
      match rstrip_unicode r with
      | [] => if is_unicode_space c then [] else [c]
      | r' => c :: r'
      end
  end.

Definition str_strip (l : list ascii) : list ascii :=
  rstrip_unicode (lstrip_unicode l).

(** [urllib.parse.unwrap]: the URL without surrounding white space, angle
    brackets and a leading URL: mark. *)
Definition unwrap (url : list ascii) : list ascii :=
  let url := str_strip url in
  let url := match url, rev url with
             | "<"%char :: r, ">"%char :: _ => str_strip (removelast r)
             | _, _ => url
             end in
  match url with
  | "U"%char :: "R"%char :: "L"%char :: ":"%char :: r => str_strip r
  | _ => url
  end.

(** [str.rpartition(d)]: the parts before and after the last [d]. *)
Fixpoint rpartition (d : ascii) (l : list ascii) : option (list ascii * list ascii) :=
  match l with
  | [] => None
  | c :: r =>
      match rpartition d r with
      | Some (before, after) => Some (c :: before, after)
      | None => if Ascii.eqb c d then Some ([], r) else None
      end
  end.

(** [_splittag]. *)
Definition splittag (url : list ascii) : list ascii * option (list ascii) :=
  match rpartition "#"%char url with
  | Some (before, tag) => (before, Some tag)
  | None => (url, None)
  end.

(** The longest prefix of characters that are none of [stop], and the rest. *)
Fixpoint span_until (stop : list ascii) (l : list ascii) : list ascii * list ascii :=
  match l with
  | [] => ([], [])
  | c :: r =>
      if existsb (Ascii.eqb c) stop then ([], l)
      else let '(a, b) := span_until stop r in (c :: a, b)
  end.

(** [_splittype]: a non-empty run without slash and colon, then a colon. *)
Definition splittype (url : list ascii) : option (list ascii) * list ascii :=
  match span_until ["/"; ":"]%char url with
  | (c :: scheme, ":"%char :: rest) => (Some (map lower_char (c :: scheme)), rest)
  | _ => (None, url)
  end.

(** [_splithost]: after two slashes, the host up to the first slash, hash
    or question mark; what follows is the selector, with a slash put in
    front when it starts otherwise. *)
Definition splithost (url : list ascii) : option (list ascii) * list ascii :=
  match url with
  | "/"%char :: "/"%char :: r =>
      let '(host_port, rest) := span_until ["/"; "#"; "?"]%char r in
      (Some host_port,
       match rest with
       | [] => []
       | c :: _ => if Ascii.eqb c "/"%char then rest else "/"%char :: rest
       end)
  | _ => (None, url)
  end.

(** [urllib.request.Request(url, data=..., method=...)].  The constructor
    raises [ValueError] for a URL without type; the URL of [proxy_request]
    starts with http: and always has one ([target_url_has_type] below), so
    that case is left out.  The property [full_url] puts a non-empty tag
    back behind the URL. *)
Definition Request_new (url : string) (d : option bytes) (m : string) : Request :=
  let '(u, fragment) := splittag (unwrap (list_ascii_of_string url)) in
  let '(_, rest) := splittype u in
  let '(_, sel) := splithost rest in
  {| full_url := string_of_list_ascii
                   match fragment with
                   | Some (c :: tag) => u ++ "#"%char :: c :: tag
                   | _ => u
                   end;
     selector := string_of_list_ascii sel;
     data := d; method := m; req_headers := ∅ |}.

(** [add_header] stores the value under [key.capitalize()]. *)
Definition add_header (key val : string) (r : Request) : Request :=
  {| full_url := full_url r; selector := selector r;
     data := data r; method := method r;
     req_headers := <[capitalize key := val]> (req_headers r) |}.

(** [urlopen(req, timeout=30)]: [req] is handed to urllib and recorded in
    [contacted], one entry per call.  What urllib puts on the wire for the
    call (the request for [selector]; after a 301, 302, 303, 307 or 308 the
    further requests it makes by itself) and the origin's final answer are
    the environment's. *)
Definition do_urlopen (env : Env) (req : Request) : M Response :=
  fun s =>
    let s' := {| headers_buffer := headers_buffer s; wfile := wfile s;
                 contacted := contacted s ++ [req] |} in
    match urlopen env req with
    | Returns r => (Done r, s')
    | Raises e => (Raised e, s')
    end.

(** ** [CORSProxyHandler] *)

Definition excluded_request_headers : list string := ["host"; "origin"; "referer"].
Definition excluded_response_headers : list string := ["transfer-encoding"; "connection"].

Definition cors_headers : list header :=
  [("Access-Control-Allow-Origin", "*");
   ("Access-Control-Allow-Methods", "GET, POST, PUT, DELETE, OPTIONS");
   ("Access-Control-Allow-Headers", "Content-Type, Authorization, X-Requested-With");
   ("Access-Control-Max-Age", "86400")].

Definition add_cors_headers : M unit :=
  send_header "Access-Control-Allow-Origin" "*" ;;;
  send_header "Access-Control-Allow-Methods" "GET, POST, PUT, DELETE, OPTIONS" ;;;
  send_header "Access-Control-Allow-Headers"
              "Content-Type, Authorization, X-Requested-With" ;;;
  send_header "Access-Control-Max-Age" "86400".

Definition copy_header (req : Request) (h : header) : Request :=
  let '(header_name, header_value) := h in
  if decide (lower header_name ∈ excluded_request_headers) then req
  else add_header header_name header_value req.

Section Handler.
Context (env : Env) (self : CORSProxyHandler).

Definition do_OPTIONS : M unit :=
  send_response env 200 ;;;
  add_cors_headers ;;;
  end_headers.

Definition target_url : string :=
  "http://" +:+ target_host self +:+ ":" +:+ str_of_int (target_port self)
  +:+ path self.

(** Lines 66 to 70: the body is read only when the Content-Length value
    is a non-empty string. *)
Definition read_post_data : M (option bytes) :=
  match Message_get "Content-Length" (headers self) with
  | Some content_length =>
      if decide (content_length = "") then ret None
      else
        match py_int content_length with
        | Some n => b <- lift_read (rfile_read env n) ;; ret (Some b)
        | None => raise (OtherException (int_error_text env content_length))
        end
  | None => ret None
  end.

(** Lines 80 to 85: [copy_header] is the body of the loop. *)
Definition copy_request_headers (req : Request) : Request :=
  foldl copy_header req (headers self).

Definition build_request (meth : string) (post_data : option bytes) : Request :=
  copy_request_headers (Request_new target_url post_data meth).

(** Lines 88 to 103. *)
Definition relay (response : Response) : M unit :=
  send_response env (getcode response) ;;;
  add_cors_headers ;;;
  for_each (response_headers response)
    (fun '(header_name, header_value) =>
       if decide (lower header_name ∈ excluded_response_headers) then ret tt
       else send_header header_name header_value) ;;;
  end_headers ;;;
  b <- lift_read (response_read response) ;;
  wfile_write b.

(** Lines 108 to 112: the body of the error is read for the log only and
    whatever this raises is dropped. *)
Definition log_error_body (fp : read_result) : M unit :=
  try_except (_ <- lift_read fp ;; ret tt) (fun _ => ret tt).

Definition on_http_error (code : Z) (reason : string) (fp : read_result) : M unit :=
  log_error_body fp ;;;
  send_response env code ;;;
  add_cors_headers ;;;
  send_header "Content-Type" "application/json" ;;;
  end_headers ;;;
  wfile_write (error_body (code_points ("HTTP " +:+ str_of_int code))
                          (code_points reason)).

Definition on_exception (text : pystr) : M unit :=
  send_response env 500 ;;;
  add_cors_headers ;;;
  send_header "Content-Type" "application/json" ;;;
  end_headers ;;;
  wfile_write (error_body (code_points "Proxy Error") text).

Definition proxy_request (meth : string) : M unit :=
  try_except
    (post_data <- read_post_data ;;
     response <- do_urlopen env (build_request meth post_data) ;;
     relay response)
    (fun e => match e with
              | HTTPError code reason fp => on_http_error code reason fp
              | OtherException text => on_exception text
              end).

Definition do_GET : M unit := proxy_request "GET".
Definition do_POST : M unit := proxy_request "POST".
Definition do_PUT : M unit := proxy_request "PUT".
Definition do_DELETE : M unit := proxy_request "DELETE".

(** The dispatch of the base class on [command]: the method of that
    name when the handler has one; [None] is the 501 answer of the base
    class, which [handle_one_request] below adds. *)
Definition handle_command : option (M unit) :=
  if decide (command self = "OPTIONS") then Some do_OPTIONS
  else if decide (command self = "GET") then Some do_GET
  else if decide (command self = "POST") then Some do_POST
  else if decide (command self = "PUT") then Some do_PUT
  else if decide (command self = "DELETE") then Some do_DELETE
  else None.
End Handler.

(** [parse_request] of the base class, its step on the request-target:
    two or more leading slashes are reduced to one before the handler sees
    [self.path]. *)
Fixpoint lstrip_slash (s : string) : string :=
  match s with
  | String c r => if Ascii.eqb c "/"%char then lstrip_slash r else s
  | EmptyString => EmptyString
  end.

Definition parse_path (request_target : string) : string :=
  match request_target with
  | String "/"%char (String "/"%char r) => String "/"%char (lstrip_slash r)
  | _ => request_target
  end.

(** [create_handler_class]: the handler class for a target; the base class
    instantiates it once per request with the parsed request line and
    headers. *)
Definition create_handler_class (host : string) (port : Z)
    (cmd p : string) (hs : list header) : CORSProxyHandler :=
  {| target_host := host; target_port := port;
     command := cmd; path := p; headers := hs |}.

(** ** Running a handler and what the client reads *)

Definition run (m : M unit) : hstate := snd (m initial).
Definition result (m : M unit) : outcome unit := fst (m initial).

(** The request body as [proxy_request] obtains it. *)
Definition post_data_of (env : Env) (self : CORSProxyHandler) : outcome (option bytes) :=
  fst (read_post_data env self initial).

Definition header_lines (ls : list hline) : list header :=
  omap (fun l => match l with
                 | HeaderLine n v => Some (n, v)
                 | StatusLine _ => None
                 end) ls.

Definition status_received (w : list chunk) : option Z :=
  match w with
  | Head (StatusLine c :: _) :: _ => Some c
  | _ => None
  end.

Definition headers_received (w : list chunk) : list header :=
  match w with
  | Head (StatusLine _ :: ls) :: _ => header_lines ls
  | _ => []
  end.

(** The bytes after the head; [None] when a further head was written
    where the body should be. *)
Fixpoint body_bytes (w : list chunk) : option bytes :=
  match w with
  | [] => Some []
  | Body b :: r => match body_bytes r with
                   | Some b' => Some (b ++ b')
                   | None => None
                   end
  | Head _ :: _ => None
  end.

Definition body_received (w : list chunk) : option bytes :=
  match w with
  | Head _ :: r => body_bytes r
  | _ => None
  end.

(** A head carries the CORS set when looking each of the four names up
    gives the fixed value. *)
Definition cors_present (hs : list header) : Prop :=
  forall n v, (n, v) ∈ cors_headers -> (n, v) ∈ hs /\ Message_get n hs = Some v.

Definition head_with_cors (c : chunk) : Prop :=
  match c with
  | Head (StatusLine _ :: ls) => cors_present (header_lines ls)
  | Head _ => False
  | Body _ => True
  end.

(** The head [send_response] starts, and the three heads of the proxy. *)
Definition response_start (env : Env) (code : Z) : list hline :=
  [StatusLine code; HeaderLine "Server" (version_string env);
   HeaderLine "Date" (date_time_string env)].

Definition header_line (h : header) : hline := HeaderLine (fst h) (snd h).

Definition cors_lines : list hline := map header_line cors_headers.

Definition error_head (env : Env) (code : Z) : list hline :=
  response_start env code ++ cors_lines
  ++ [HeaderLine "Content-Type" "application/json"].

Definition relayed_headers (hs : list header) : list header :=
  filter (fun h => lower (fst h) ∉ excluded_response_headers) hs.

Definition relayed_head (env : Env) (r : Response) : list hline :=
  response_start env (getcode r) ++ cors_lines
  ++ map header_line (relayed_headers (response_headers r)).

(** What the two exception handlers of [proxy_request] write. *)
Definition error_answer (env : Env) (e : exn) : list chunk :=
  match e with
  | HTTPError code reason _ =>
      [Head (error_head env code);
       Body (error_body (code_points ("HTTP " +:+ str_of_int code)) (code_points reason))]
  | OtherException text =>
      [Head (error_head env 500); Body (error_body (code_points "Proxy Error") text)]
  end.

(** The value [copy_request_headers] leaves under key [k]: that of the last
    inbound header which is kept and whose capitalized name is [k]. *)
Fixpoint last_forwarded (k : string) (hs : list header) : option string :=
  match hs with
  | [] => None
  | (n, v) :: r =>
      match last_forwarded k r with
      | Some v' => Some v'
      | None =>
          if decide (lower n ∈ excluded_request_headers) then None
          else if decide (capitalize n = k) then Some v else None
      end
  end.

(** ** Start-up: the exception handlers of [main] *)








(** ** The statements of the specification that the code does not meet,
    as they are written *)

(** Origin error passthrough: a complete non-2xx answer of the origin
    reaches the client with its status and its own body. *)
Definition origin_error_passthrough (env : Env) (self : CORSProxyHandler)
    (meth : string) : Prop :=
  forall pd code reason hs body,
    post_data_of env self = Done pd ->
    urlopen env (build_request self meth pd) = http_response code reason hs body ->
    ~ (200 <= code < 300) ->
    let w := wfile (run (proxy_request env self meth)) in
    status_received w = Some code /\ body_received w = Some body.

(** Transparent forwarding: the Request handed to [urlopen] is for the URL
    made of the target and the path, and the request-target sent for it is
    the path as it was received. *)
Definition request_target_is_verbatim (self : CORSProxyHandler) (meth : string)
    (pd : option bytes) : Prop :=
  full_url (build_request self meth pd) = target_url self
  /\ selector (build_request self meth pd) = path self.

(** The path up to, not including, its last hash sign; the path itself
    when it has none. *)
Definition cut_fragment (p : string) : string :=
  string_of_list_ascii (fst (splittag (list_ascii_of_string p))).

(** The characters of the target URL between its scheme and the path. *)
Definition http_prefix : list ascii := list_ascii_of_string "http://".

Definition target_prefix (self : CORSProxyHandler) : list ascii :=
  list_ascii_of_string (target_host self)
  ++ ":"%char :: list_ascii_of_string (str_of_int (target_port self)).

(** Header exclusion: the outbound mapping is the inbound headers without
    host, origin and referer, names and values unchanged. *)
Definition outbound_headers_unchanged (self : CORSProxyHandler) (meth : string)
    (pd : option bytes) : Prop :=
  forall n v,
    req_headers (build_request self meth pd) !! n = Some v <->
    (n, v) ∈ headers self /\ lower n ∉ excluded_request_headers.

(** Duplicates: every inbound entry that is not excluded is still there,
    under its name up to case. *)
Definition duplicates_preserved (self : CORSProxyHandler) (meth : string)
    (pd : option bytes) : Prop :=
  forall n v,
    (n, v) ∈ headers self -> lower n ∉ excluded_request_headers ->
    exists k, lower k = lower n /\
              req_headers (build_request self meth pd) !! k = Some v.

(** Hop-by-hop stripping: the client headers are the origin's without
    transfer-encoding and connection, plus the CORS set, and nothing else. *)
Definition client_headers_are_origin_plus_cors (env : Env)
    (self : CORSProxyHandler) (meth : string) : Prop :=
  forall pd code hs body,
    post_data_of env self = Done pd ->
    urlopen env (build_request self meth pd)
      = Returns {| getcode := code; response_headers := hs;
                   response_read := ReadOk body |} ->
    forall h, h ∈ headers_received (wfile (run (proxy_request env self meth)))
              <-> h ∈ relayed_headers hs \/ h ∈ cors_headers.

(** A Content-Length that [int] refuses: nothing is forwarded, status 500
    and the JSON error body. *)
Definition bad_content_length_is_500 (env : Env) (self : CORSProxyHandler)
    (meth : string) : Prop :=
  forall v,
    Message_get "Content-Length" (headers self) = Some v ->
    py_int v = None ->
    let s := run (proxy_request env self meth) in
    contacted s = [] /\ status_received (wfile s) = Some 500 /\
    exists msg, body_received (wfile s)
                = Some (error_body (code_points "Proxy Error") msg).

(** ** Concrete requests and origins *)

Definition quoted (s : string) : string := String dquote (s +:+ String dquote "").

Definition example_env (answer : urlopen_result) : Env :=
  {| urlopen := fun _ => answer;
     rfile_read := fun _ => ReadOk [];
     version_string := "BaseHTTP/0.6 Python/3.12.3";
     date_time_string := "Tue, 03 Nov 2026 09:30:00 GMT";
     int_error_text := fun s =>
       code_points ("invalid literal for int() with base 10: '" +:+ s +:+ "'") |}.

(** The handler class for the default target, localhost:8000. *)
Definition example_handler : string -> string -> list header -> CORSProxyHandler :=
  create_handler_class "localhost" 8000.

(** The 404 of the specification: body [{"detail":"not found"}]. *)
Definition not_found_body : bytes :=
  list_byte_of_string ("{" +:+ quoted "detail" +:+ ":" +:+ quoted "not found" +:+ "}").

Definition origin_404 : Env :=
  example_env (http_response 404 "Not Found"
                 [("content-type", "application/json")] not_found_body).

(** The 200 of the specification: body [{"items":[]}]. *)
Definition items_body : bytes :=
  list_byte_of_string ("{" +:+ quoted "items" +:+ ":[]}").

Definition items_response : Response :=
  {| getcode := 200;
     response_headers := [("content-type", "application/json");
                          ("Transfer-Encoding", "chunked");
                          ("x-chroma-version", "0.5.0")];
     response_read := ReadOk items_body |}.

Definition origin_200 : Env := example_env (Returns items_response).

(** The origin sends the head of a 200 and the connection is reset while
    the body is read. *)
Definition origin_reset_in_body : Env :=
  example_env (Returns {| getcode := 200;
                          response_headers := [("content-type", "application/json")];
                          response_read :=
                            ReadRaises (code_points "[Errno 104] Connection reset by peer") |}).

Definition origin_refused : Env :=
  example_env (Raises (OtherException
    (code_points "<urlopen error [Errno 111] Connection refused>"))).

Definition get_collections : CORSProxyHandler :=
  example_handler "GET" "/api/v1/collections?limit=10"
    [("Host", "x"); ("Origin", "y"); ("Referer", "z"); ("X-Custom", "w")].

Definition get_with_api_key : CORSProxyHandler :=
  example_handler "GET" "/api/v1/collections"
    [("Host", "localhost:5001"); ("Authorization", "Bearer t0ken");
     ("X-API-Key", "k3y")].

(** A request-target with a fragment, as a client other than a browser
    can send it. *)
Definition get_with_fragment : CORSProxyHandler :=
  example_handler "GET" "/api/v1/collections?limit=10#top" [("Host", "x")].

Definition get_with_duplicates : CORSProxyHandler :=
  example_handler "GET" "/api/v1/heartbeat"
    [("Accept", "text/html"); ("Accept", "application/json")].

Definition post_with_length (v : string) : CORSProxyHandler :=
  example_handler "POST" "/api/v1/collections" [("Content-Length", v)].

Definition options_request : CORSProxyHandler :=
  example_handler "OPTIONS" "/api/v1/collections"
    [("Origin", "http://localhost:5000");
     ("Access-Control-Request-Method", "POST")].





(** ** The rest of the request cycle

    What the base class does around the methods of the handler, and the
    static server of serve.py, which shares the base class. *)

(** [env] with another client stream. *)
Definition with_rfile (env : Env) (rf : Z -> read_result) : Env :=
  {| urlopen := urlopen env; rfile_read := rf;
     version_string := version_string env;
     date_time_string := date_time_string env;
     int_error_text := int_error_text env |}.

(** [BaseHTTPRequestHandler.send_error(code, message)].  [page] is the HTML
    page the base class renders for the code and the message; [end_hdrs] is
    the [end_headers] of the handler class, which [send_error] calls through
    [self].  No page is announced or sent for a code below 200 nor for 204,
    205 and 304, and none is sent in answer to HEAD. *)
Definition send_error (env : Env) (end_hdrs : M unit) (cmd : string) (code : Z)
    (page : bytes) : M unit :=
  let with_body := bool_decide (200 <= code /\ code ∉ [204; 205; 304]) in
  send_response env code ;;;
  send_header "Connection" "close" ;;;
  (if with_body
   then send_header "Content-Type" "text/html;charset=utf-8" ;;;
        send_header "Content-Length" (str_of_int (Z.of_nat (length page)))
   else ret tt) ;;;
  end_hdrs ;;;
  (if (with_body && bool_decide (cmd <> "HEAD") && bool_decide (page <> []))%bool
   then wfile_write page
   else ret tt).

(** [handle_one_request] of the base class once the request is parsed: the
    method named after the command, or the 501 answer when the handler has
    none.  [page] is the page of that answer. *)
Definition handle_one_request (env : Env) (self : CORSProxyHandler)
    (page : bytes) : M unit :=
  match handle_command env self with
  | Some m => m
  | None => send_error env end_headers (command self) 501 page
  end.

(** What [send_error] has in the buffer for a 501 when it calls
    [end_headers]. *)
Definition error_501_head (env : Env) (page : bytes) : list hline :=
  response_start env 501
  ++ [HeaderLine "Connection" "close";
      HeaderLine "Content-Type" "text/html;charset=utf-8";
      HeaderLine "Content-Length" (str_of_int (Z.of_nat (length page)))].

(** No header of the head has a hop-by-hop name. *)
Definition no_hop_by_hop (c : chunk) : Prop :=
  match c with
  | Head ls => forall n v, (n, v) ∈ header_lines ls ->
                           lower n ∉ excluded_response_headers
  | Body _ => True
  end.

(** *** serve.py *)
Module Serve.

Definition cors_headers : list header :=
  [("Access-Control-Allow-Origin", "*");
   ("Access-Control-Allow-Methods", "GET, POST, OPTIONS");
   ("Access-Control-Allow-Headers", "Content-Type")].

(** [CORSHTTPRequestHandler.end_headers]: three headers, then the
    [end_headers] of the base class. *)
Definition end_headers : M unit :=
  send_header "Access-Control-Allow-Origin" "*" ;;;
  send_header "Access-Control-Allow-Methods" "GET, POST, OPTIONS" ;;;
  send_header "Access-Control-Allow-Headers" "Content-Type" ;;;
  end_headers.

Definition do_OPTIONS (env : Env) : M unit :=
  send_response env 200 ;;;
  end_headers.

(** The dispatch of the base class for this handler: [do_OPTIONS] is its
    own, [do_GET] and [do_HEAD] are the file serving of
    [SimpleHTTPRequestHandler], which this file does not describe ([None]);
    every other command gets the 501 answer. *)
Definition handle_command (env : Env) (cmd : string) (page : bytes)
  : option (M unit) :=
  if decide (cmd = "OPTIONS") then Some (do_OPTIONS env)
  else if decide (cmd = "GET" \/ cmd = "HEAD") then None
  else Some (send_error env end_headers cmd 501 page).

End Serve.

(** *** Further requests and origins *)



(** A client that goes away before its body has arrived. *)
Definition client_resets (env : Env) : Env :=
  with_rfile env (fun _ => ReadRaises (code_points "[Errno 104] Connection reset by peer")).

(** The origin answers 502 and the stream of that answer breaks. *)
Definition origin_502_broken : Env :=
  example_env (Raises (HTTPError 502 "Bad Gateway"
                         (ReadRaises (code_points "IncompleteRead(0 bytes read)")))).

(** Two cookies in one answer. *)
Definition cookies_response : Response :=
  {| getcode := 200;
     response_headers := [("Set-Cookie", "a=1"); ("Connection", "close");
                          ("Set-Cookie", "b=2")];
     response_read := ReadOk items_body |}.

Definition origin_cookies : Env := example_env (Returns cookies_response).

(** [get_collections] as a client without Host, Origin and Referer sends it. *)
Definition get_collections_bare : CORSProxyHandler :=
  example_handler "GET" "/api/v1/collections?limit=10" [("X-Custom", "w")].

Definition patch_request : CORSProxyHandler :=
  example_handler "PATCH" "/api/v1/collections/c1" [("Content-Length", "2")].

Definition error_page_501 : bytes := list_byte_of_string "<!DOCTYPE HTML><html>501</html>".

(** * Properties *)

(** [H] says that a header or a name is in a list written out in full where
    it does not occur. *)
Ltac not_in_list H :=
  repeat (apply elem_of_cons in H as [H|H]; [discriminate|]);
  by apply elem_of_nil in H.

(** The hypothesis that a name in lower case is none of the excluded ones. *)
Ltac not_excluded :=
  let H := fresh "Hin" in vm_compute; intros H; not_in_list H.

(** ** The library functions on a few inputs *)

Example py_int_accepts :
  map py_int ["12"; " 12 "; "1_0"; "+5"; "-5"; "007"]
  = [Some 12; Some 12; Some 10; Some 5; Some (-5); Some 7].
Proof. reflexivity. Qed.

Example py_int_refuses :
  map py_int [""; "  "; "abc"; "12abc"; "_1"; "1_"; "1__0"; "+ 5"; "0x10"; "1.5"]
  = replicate 10 None.
Proof. reflexivity. Qed.

Example capitalize_examples :
  map capitalize ["X-Custom"; "x-api-KEY"; "Authorization"; "HOST"]
  = ["X-custom"; "X-api-key"; "Authorization"; "Host"].
Proof. reflexivity. Qed.

Example json_escapes :
  string_of_list_ascii
    (json_string [233; 128512; 10; 34; 92; 127; 8; 12; 1; 97]%N)
  = String dquote ("\u00e9\ud83d\ude00\n\" +:+ String dquote
                   ("\\\u007f\b\f\u0001a" +:+ String dquote "")).
Proof. reflexivity. Qed.

Example proxy_error_body :
  error_body (code_points "Proxy Error") (code_points "timed out")
  = list_byte_of_string
      ("{" +:+ quoted "error" +:+ ": " +:+ quoted "Proxy Error" +:+ ", "
       +:+ quoted "message" +:+ ": " +:+ quoted "timed out" +:+ "}").
Proof. reflexivity. Qed.

(** ** [json.dumps] returns printable ASCII *)

Lemma hex_digit_printable (n : N) : printable (hex_digit (N.land n 15)) = true.
Proof.
  change 15%N with (N.ones 4). rewrite N.land_ones.
  pose proof (N.mod_lt n (2 ^ 4)%N) as Hlt.
  assert (n `mod` 2 ^ 4 < 16)%N as H by (apply Hlt; done).
  destruct (n `mod` 2 ^ 4)%N as [|p]; [done|].
  do 4 (destruct p as [p|p|]; try done); lia.
Qed.

Lemma u_escape_printable (n : N) : forallb printable (u_escape n) = true.
Proof. unfold u_escape. cbn [forallb]. by rewrite !hex_digit_printable. Qed.

Lemma json_escape_char_printable (n : N) :
  forallb printable (json_escape_char n) = true.
Proof.
  unfold json_escape_char.
  do 7 (destruct (n =? _)%N; [done|]).
  destruct ((32 <=? n)%N && (n <=? 126)%N)%bool eqn:H.
  - cbn [forallb]. rewrite andb_true_r.
    apply andb_true_iff in H as [H1%N.leb_le H2%N.leb_le].
    unfold printable.
    assert (nat_of_ascii (ascii_of_N n) = N.to_nat n) as ->.
    { unfold nat_of_ascii. rewrite N_ascii_embedding by lia. done. }
    apply andb_true_iff. split; apply Nat.leb_le; lia.
  - case_match; [apply u_escape_printable|].
    rewrite forallb_app, !u_escape_printable. done.
Qed.

Lemma json_string_printable (s : pystr) : forallb printable (json_string s) = true.
Proof.
  assert (forallb printable (concat (map json_escape_char s)) = true) as H.
  { induction s as [|n s IH]; [done|].
    cbn [map concat]. by rewrite forallb_app, json_escape_char_printable, IH. }
  unfold json_string.
  change (forallb printable (dquote :: ?l)) with (forallb printable l).
  by rewrite forallb_app, H.
Qed.

Lemma json_dumps2_printable (k1 v1 k2 v2 : pystr) :
  forallb printable (json_dumps2 k1 v1 k2 v2) = true.
Proof.
  unfold json_dumps2. by rewrite !forallb_app, !json_string_printable.
Qed.

(** ** Case mapping *)

Lemma lower_char_idemp c : lower_char (lower_char c) = lower_char c.
Proof. by destruct c as [[] [] [] [] [] [] [] []]. Qed.

Lemma lower_upper_char c : lower_char (upper_char c) = lower_char c.
Proof. by destruct c as [[] [] [] [] [] [] [] []]. Qed.

Lemma upper_lower_char c : upper_char (lower_char c) = upper_char c.
Proof. by destruct c as [[] [] [] [] [] [] [] []]. Qed.

Lemma lower_idemp s : lower (lower s) = lower s.
Proof. induction s as [|c s IH]; [done|]. cbn. by rewrite lower_char_idemp, IH. Qed.

Lemma lower_capitalize s : lower (capitalize s) = lower s.
Proof. destruct s as [|c s]; [done|]. cbn. by rewrite lower_upper_char, lower_idemp. Qed.

Lemma capitalize_lower s : capitalize (lower s) = capitalize s.
Proof. destruct s as [|c s]; [done|]. cbn. by rewrite upper_lower_char, lower_idemp. Qed.

Lemma capitalize_eq_iff a b : capitalize a = capitalize b <-> lower a = lower b.
Proof.
  split; intros H.
  - by rewrite <- (lower_capitalize a), H, lower_capitalize.
  - by rewrite <- (capitalize_lower a), H, capitalize_lower.
Qed.

(** ** The headers of the outbound request *)

Lemma Message_get_app name pre post :
  Message_get name (pre ++ post)
  = match Message_get name pre with
    | Some v => Some v
    | None => Message_get name post
    end.
Proof.
  induction pre as [|[n w] pre IH]; [done|]. cbn.
  by destruct (decide _).
Qed.

Lemma last_forwarded_Some k hs v :
  last_forwarded k hs = Some v ->
  exists n, (n, v) ∈ hs /\ (lower n ∉ excluded_request_headers) /\ capitalize n = k.
Proof.
  induction hs as [|[n w] hs IH]; [done|]. cbn.
  destruct (last_forwarded k hs) as [v'|].
  - intros [= ->]. destruct IH as (n' & ? & ? & ?); [done|].
    exists n'. split_and!; [by right|done..].
  - destruct (decide _); [done|]. destruct (decide _); [|done].
    intros [= ->]. exists n. split_and!; [by left|done..].
Qed.

Lemma last_forwarded_app k pre post :
  last_forwarded k (pre ++ post)
  = match last_forwarded k post with
    | Some v => Some v
    | None => last_forwarded k pre
    end.
Proof.
  induction pre as [|[n w] pre IH]; cbn.
  - by destruct (last_forwarded k post).
  - rewrite IH. by destruct (last_forwarded k post).
Qed.

Lemma last_forwarded_None k hs :
  (forall n v, (n, v) ∈ hs -> capitalize n ≠ k) -> last_forwarded k hs = None.
Proof.
  intros H. destruct (last_forwarded k hs) as [v|] eqn:E; [|done].
  apply last_forwarded_Some in E as (n & Hin & _ & Hk). by destruct (H n v).
Qed.

Lemma last_forwarded_get n hs :
  lower n ∉ excluded_request_headers ->
  last_forwarded (capitalize n) hs = Message_get n (reverse hs).
Proof.
  intros Hn. induction hs as [|[n' w] hs IH]; [done|].
  cbn [last_forwarded]. rewrite reverse_cons, Message_get_app, <- IH.
  destruct (last_forwarded (capitalize n) hs); [done|]. cbn.
  destruct (decide (lower n' = lower n)) as [E|E].
  - rewrite decide_False by (by rewrite E).
    rewrite decide_True; [done|]. by apply capitalize_eq_iff.
  - destruct (decide _); [done|].
    rewrite decide_False; [done|]. by rewrite capitalize_eq_iff.
Qed.

Lemma copy_fold_lookup (hs : list header) (req : Request) (k : string) :
  req_headers (foldl copy_header req hs) !! k
  = match last_forwarded k hs with
    | Some v => Some v
    | None => req_headers req !! k
    end.
Proof.
  revert req. induction hs as [|[n v] hs IH]; intros req; [done|].
  cbn [foldl last_forwarded]. rewrite IH.
  destruct (last_forwarded k hs) as [v'|]; [done|].
  unfold copy_header.
  destruct (decide (lower n ∈ excluded_request_headers)); [done|].
  unfold add_header. cbn [req_headers].
  destruct (decide (capitalize n = k)) as [->|Hne].
  - by rewrite lookup_insert_eq.
  - by rewrite lookup_insert_ne.
Qed.

Lemma copy_fold_fields (hs : list header) (req : Request) :
  full_url (foldl copy_header req hs) = full_url req
  /\ selector (foldl copy_header req hs) = selector req
  /\ method (foldl copy_header req hs) = method req
  /\ data (foldl copy_header req hs) = data req.
Proof.
  revert req. induction hs as [|[n v] hs IH]; intros req; [done|].
  cbn [foldl]. destruct (IH (copy_header req (n, v))) as (-> & -> & -> & ->).
  unfold copy_header. by destruct (decide _).
Qed.

Lemma Request_new_fields url d m :
  req_headers (Request_new url d m) = ∅
  /\ method (Request_new url d m) = m
  /\ data (Request_new url d m) = d.
Proof.
  unfold Request_new.
  destruct (splittag _) as [u fragment]. destruct (splittype u) as [ty rest].
  by destruct (splithost rest).
Qed.

Lemma build_request_lookup self meth pd k :
  req_headers (build_request self meth pd) !! k = last_forwarded k (headers self).
Proof.
  unfold build_request, copy_request_headers.
  rewrite copy_fold_lookup.
  destruct (Request_new_fields (target_url self) pd meth) as (-> & _).
  rewrite lookup_empty.
  by destruct (last_forwarded k (headers self)).
Qed.

Lemma build_request_fields self meth pd :
  method (build_request self meth pd) = meth
  /\ data (build_request self meth pd) = pd.
Proof.
  unfold build_request, copy_request_headers.
  destruct (copy_fold_fields (headers self)
              (Request_new (target_url self) pd meth)) as (_ & _ & -> & ->).
  by destruct (Request_new_fields (target_url self) pd meth) as (_ & -> & ->).
Qed.

(** ** The steps of the handler *)

Lemma read_post_data_pure env self s :
  read_post_data env self s = (post_data_of env self, s).
Proof.
  unfold post_data_of, read_post_data.
  destruct (Message_get _ _) as [cl|]; [|reflexivity].
  destruct (decide _); [reflexivity|].
  destruct (py_int cl); [|reflexivity].
  unfold bind, lift_read. destruct (rfile_read env z); reflexivity.
Qed.

Lemma post_data_raises env self e :
  post_data_of env self = Raised e -> exists text, e = OtherException text.
Proof.
  unfold post_data_of, read_post_data.
  destruct (Message_get _ _) as [cl|]; [|discriminate].
  destruct (decide _); [discriminate|].
  destruct (py_int cl).
  - unfold bind, lift_read. destruct (rfile_read env z); simpl; [discriminate|].
    intros [= <-]. eauto.
  - simpl. intros [= <-]. eauto.
Qed.

Lemma send_response_run env code s :
  send_response env code s
  = (Done tt, {| headers_buffer := headers_buffer s ++ response_start env code;
                 wfile := wfile s; contacted := contacted s |}).
Proof.
  unfold send_response, bind, send_response_only, send_header, response_start. simpl.
  by rewrite <- !app_assoc.
Qed.

Lemma add_cors_headers_run s :
  add_cors_headers s
  = (Done tt, {| headers_buffer := headers_buffer s ++ cors_lines;
                 wfile := wfile s; contacted := contacted s |}).
Proof.
  unfold add_cors_headers, bind, send_header, cors_lines. simpl.
  by rewrite <- !app_assoc.
Qed.

Lemma relay_loop_run (hs : list header) s :
  for_each hs
    (fun '(header_name, header_value) =>
       if decide (lower header_name ∈ excluded_response_headers) then ret tt
       else send_header header_name header_value) s
  = (Done tt, {| headers_buffer := headers_buffer s ++ map header_line (relayed_headers hs);
                 wfile := wfile s; contacted := contacted s |}).
Proof.
  revert s. induction hs as [|[n v] hs IH]; intros s.
  - simpl. rewrite app_nil_r. by destruct s.
  - cbn [for_each]. unfold bind at 1. unfold relayed_headers.
    rewrite filter_cons. cbn [fst].
    destruct (decide (lower n ∈ excluded_response_headers)) as [Hin|Hin].
    + rewrite decide_False by (by intros H; apply H). 
      unfold ret at 1. apply IH.
    + rewrite decide_True by done.
      unfold send_header at 1. rewrite IH. cbn. by rewrite <- app_assoc.
Qed.

Lemma relay_run env r s :
  headers_buffer s = [] ->
  relay env r s =
  match response_read r with
  | ReadOk b =>
      (Done tt, {| headers_buffer := [];
                   wfile := wfile s ++ [Head (relayed_head env r); Body b];
                   contacted := contacted s |})
  | ReadRaises text =>
      (Raised (OtherException text),
       {| headers_buffer := [];
          wfile := wfile s ++ [Head (relayed_head env r)];
          contacted := contacted s |})
  end.
Proof.
  intros Hb. unfold relay.
  unfold bind at 1. rewrite send_response_run.
  unfold bind at 1. rewrite add_cors_headers_run.
  unfold bind at 1. rewrite relay_loop_run.
  unfold bind at 1. unfold end_headers at 1. cbn. rewrite Hb. cbn.
  unfold bind, lift_read, relayed_head.
  destruct (response_read r); cbn.
  - unfold wfile_write. cbn. by rewrite <- app_assoc.
  - done.
Qed.

Lemma on_exception_run env text s :
  headers_buffer s = [] ->
  on_exception env text s =
  (Done tt, {| headers_buffer := [];
               wfile := wfile s ++ [Head (error_head env 500);
                                    Body (error_body (code_points "Proxy Error") text)];
               contacted := contacted s |}).
Proof.
  intros Hb. unfold on_exception.
  unfold bind at 1. rewrite send_response_run.
  unfold bind at 1. rewrite add_cors_headers_run.
  unfold bind, send_header, end_headers, wfile_write. cbn.
  rewrite Hb. cbn. by rewrite <- app_assoc.
Qed.

Lemma on_http_error_run env code reason fp s :
  headers_buffer s = [] ->
  on_http_error env code reason fp s =
  (Done tt, {| headers_buffer := [];
               wfile := wfile s ++ [Head (error_head env code);
                                    Body (error_body
                                            (code_points ("HTTP " +:+ str_of_int code))
                                            (code_points reason))];
               contacted := contacted s |}).
Proof.
  intros Hb. unfold on_http_error.
  unfold bind at 1.
  assert (log_error_body fp s = (Done tt, s)) as ->.
  { unfold log_error_body, try_except, bind, lift_read. by destruct fp. }
  unfold bind at 1. rewrite send_response_run.
  unfold bind at 1. rewrite add_cors_headers_run.
  unfold bind, send_header, end_headers, wfile_write. cbn.
  rewrite Hb. cbn. by rewrite <- app_assoc.
Qed.

Lemma handlers_run env e s :
  headers_buffer s = [] ->
  match e with
  | HTTPError code reason fp => on_http_error env code reason fp
  | OtherException text => on_exception env text
  end s
  = (Done tt, {| headers_buffer := []; wfile := wfile s ++ error_answer env e;
                 contacted := contacted s |}).
Proof.
  intros Hb. destruct e; [by apply on_http_error_run | by apply on_exception_run].
Qed.

Lemma do_OPTIONS_run env :
  do_OPTIONS env initial
  = (Done tt, {| headers_buffer := [];
                 wfile := [Head (response_start env 200 ++ cors_lines)];
                 contacted := [] |}).
Proof. reflexivity. Qed.

Lemma handle_command_cases env self m :
  handle_command env self = Some m ->
  m = do_OPTIONS env \/ exists meth, m = proxy_request env self meth.
Proof.
  unfold handle_command.
  repeat (destruct (decide _); [intros [= <-]; (by left) || (right; by eexists)|]).
  done.
Qed.

(** ** The run of [proxy_request] in each case *)

Lemma proxy_request_run env self meth :
  proxy_request env self meth initial =
  (Done tt,
   match post_data_of env self with
   | Raised e =>
       {| headers_buffer := []; wfile := error_answer env e; contacted := [] |}
   | Done pd =>
       let req := build_request self meth pd in
       {| headers_buffer := [];
          wfile :=
            match urlopen env req with
            | Raises e => error_answer env e
            | Returns r =>
                match response_read r with
                | ReadOk b => [Head (relayed_head env r); Body b]
                | ReadRaises text =>
                    Head (relayed_head env r) :: error_answer env (OtherException text)
                end
            end;
          contacted := [req] |}
   end).
Proof.
  unfold proxy_request, try_except.
  unfold bind at 1. rewrite read_post_data_pure.
  destruct (post_data_of env self) as [pd|e].
  - unfold bind at 1. unfold do_urlopen.
    destruct (urlopen env (build_request self meth pd)) as [r|e].
    + rewrite relay_run by done. cbn.
      destruct (response_read r) as [b|text]; [done|].
      by rewrite on_exception_run.
    + by rewrite handlers_run.
  - by rewrite handlers_run.
Qed.

Lemma proxy_request_contacts env self meth req :
  req ∈ contacted (run (proxy_request env self meth)) ->
  exists pd, post_data_of env self = Done pd /\ req = build_request self meth pd.
Proof.
  unfold run. rewrite proxy_request_run. cbn [snd].
  destruct (post_data_of env self) as [pd|e]; cbn [contacted].
  - intros ->%list_elem_of_singleton. by exists pd.
  - by intros ?%elem_of_nil.
Qed.

Lemma proxy_request_success env self meth pd r b :
  post_data_of env self = Done pd ->
  urlopen env (build_request self meth pd) = Returns r ->
  response_read r = ReadOk b ->
  run (proxy_request env self meth)
  = {| headers_buffer := []; wfile := [Head (relayed_head env r); Body b];
       contacted := [build_request self meth pd] |}.
Proof.
  intros Hpd Hopen Hread. unfold run. rewrite proxy_request_run, Hpd. cbn.
  by rewrite Hopen, Hread.
Qed.

Lemma proxy_request_urlopen_raises env self meth pd e :
  post_data_of env self = Done pd ->
  urlopen env (build_request self meth pd) = Raises e ->
  run (proxy_request env self meth)
  = {| headers_buffer := []; wfile := error_answer env e;
       contacted := [build_request self meth pd] |}.
Proof.
  intros Hpd Hopen. unfold run. rewrite proxy_request_run, Hpd. cbn.
  by rewrite Hopen.
Qed.

(** Whatever happens, [proxy_request] returns normally: no exception
    leaves it. *)
Lemma proxy_request_returns env self meth :
  result (proxy_request env self meth) = Done tt.
Proof. unfold result. by rewrite proxy_request_run. Qed.

(** A failure of [urlopen] itself, before any head was written, is
    answered with status 500, the JSON content type and the JSON body. *)
Lemma urlopen_failure_is_500 env self meth pd text :
  post_data_of env self = Done pd ->
  urlopen env (build_request self meth pd) = Raises (OtherException text) ->
  let s := run (proxy_request env self meth) in
  wfile s = [Head (error_head env 500);
             Body (error_body (code_points "Proxy Error") text)]
  /\ status_received (wfile s) = Some 500
  /\ ("Content-Type", "application/json") ∈ headers_received (wfile s)
  /\ body_received (wfile s) = Some (error_body (code_points "Proxy Error") text).
Proof.
  intros Hpd Hopen. cbn zeta.
  rewrite (proxy_request_urlopen_raises _ _ _ _ _ Hpd Hopen). cbn.
  split_and!; [done..| |by rewrite app_nil_r].
  do 6 right. by left.
Qed.

(** ** The CORS set in every head *)

Lemma header_lines_map hs : header_lines (map header_line hs) = hs.
Proof.
  unfold header_lines. induction hs as [|[n v] hs IH]; [done|].
  cbn. by rewrite IH.
Qed.

Lemma header_lines_app a b : header_lines (a ++ b) = header_lines a ++ header_lines b.
Proof. apply omap_app. Qed.

Lemma cors_present_after_start env (tl : list header) :
  cors_present ([("Server", version_string env); ("Date", date_time_string env)]
                ++ cors_headers ++ tl).
Proof.
  intros n v Hin. split.
  - apply elem_of_app. right. apply elem_of_app. by left.
  - unfold cors_headers in Hin.
    repeat (apply elem_of_cons in Hin as [[= -> ->]|Hin]; [reflexivity|]).
    by apply elem_of_nil in Hin.
Qed.

Lemma header_lines_start env code (ls : list hline) :
  response_start env code ++ ls
  = StatusLine code :: HeaderLine "Server" (version_string env)
    :: HeaderLine "Date" (date_time_string env) :: ls
  /\ header_lines (HeaderLine "Server" (version_string env)
                   :: HeaderLine "Date" (date_time_string env) :: ls)
     = [("Server", version_string env); ("Date", date_time_string env)]
       ++ header_lines ls.
Proof. done. Qed.

Lemma relayed_head_cors env r : head_with_cors (Head (relayed_head env r)).
Proof.
  unfold relayed_head.
  destruct (header_lines_start env (getcode r)
              (cors_lines ++ map header_line (relayed_headers (response_headers r))))
    as [-> E].
  cbn [head_with_cors]. rewrite E, header_lines_app. unfold cors_lines.
  rewrite !header_lines_map. apply cors_present_after_start.
Qed.

Lemma error_head_cors env code : head_with_cors (Head (error_head env code)).
Proof.
  unfold error_head.
  destruct (header_lines_start env code
              (cors_lines ++ [HeaderLine "Content-Type" "application/json"]))
    as [-> E].
  cbn [head_with_cors]. rewrite E, header_lines_app. unfold cors_lines.
  rewrite header_lines_map. apply cors_present_after_start.
Qed.

Lemma error_answer_cors env e : Forall head_with_cors (error_answer env e).
Proof.
  destruct e; cbn [error_answer];
    (apply Forall_cons; split; [apply error_head_cors|]);
    by apply Forall_cons.
Qed.

Lemma proxy_request_cors env self meth :
  let w := wfile (run (proxy_request env self meth)) in
  (exists code ls rest, w = Head (StatusLine code :: ls) :: rest)
  /\ Forall head_with_cors w.
Proof.
  unfold run. rewrite proxy_request_run. cbn [snd].
  destruct (post_data_of env self) as [pd|e]; cbn [wfile].
  - destruct (urlopen env _) as [r|e].
    + destruct (response_read r) as [b|text].
      * split; [by eexists _, _, _|].
        apply Forall_cons; split; [apply relayed_head_cors|]. by apply Forall_cons.
      * split; [by eexists _, _, _|].
        apply Forall_cons; split; [apply relayed_head_cors|]. apply error_answer_cors.
    + split; [destruct e; by eexists _, _, _|]. apply error_answer_cors.
  - split; [destruct e; by eexists _, _, _|]. apply error_answer_cors.
Qed.

(** ** The URL of the outbound request *)

Lemma list_ascii_of_string_app (a b : string) :
  list_ascii_of_string (a +:+ b) = list_ascii_of_string a ++ list_ascii_of_string b.
Proof.
  induction a as [|c a IH]; [done|].
  change (String c a +:+ b) with (String c (a +:+ b)).
  change (list_ascii_of_string (String c ?x)) with (c :: list_ascii_of_string x).
  by rewrite IH.
Qed.

Lemma rstrip_cons_keep c r :
  is_unicode_space c = false -> rstrip_unicode (c :: r) = c :: rstrip_unicode r.
Proof. intros H. cbn. destruct (rstrip_unicode r); by rewrite ?H. Qed.

Lemma rstrip_no_space l :
  Forall (fun c => is_unicode_space c = false) l -> rstrip_unicode l = l.
Proof.
  induction 1 as [|c l Hc _ IH]; [done|]. by rewrite rstrip_cons_keep, IH.
Qed.

Lemma rstrip_app_keep a b :
  b <> [] -> rstrip_unicode b = b -> rstrip_unicode (a ++ b) = a ++ b.
Proof.
  intros Hb E. induction a as [|c a IH]; [done|].
  cbn. rewrite IH. destruct (a ++ b) eqn:Eab; [|done].
  by apply app_eq_nil in Eab as [_ ?].
Qed.

Lemma unwrap_http (x : list ascii) :
  unwrap (http_prefix ++ x) = http_prefix ++ rstrip_unicode x.
Proof.
  unfold unwrap, str_strip, http_prefix. cbn [list_ascii_of_string app].
  cbn [lstrip_unicode]. 
  change (is_unicode_space "h") with false. cbn iota.
  rewrite !rstrip_cons_keep by reflexivity. reflexivity.
Qed.

Lemma rpartition_app (d : ascii) (a y : list ascii) :
  d ∉ a ->
  rpartition d (a ++ y)
  = match rpartition d y with
    | Some (b, t) => Some (a ++ b, t)
    | None => None
    end.
Proof.
  intros Ha. induction a as [|c a IH]; [cbn; by destruct (rpartition d y) as [[]|]|].
  apply not_elem_of_cons in Ha as [Hc Ha]. cbn. rewrite IH by done.
  destruct (rpartition d y) as [[b t]|]; [done|].
  destruct (Ascii.eqb_spec c d); [congruence|done].
Qed.

Lemma rpartition_Some (d : ascii) (l b t : list ascii) :
  rpartition d l = Some (b, t) -> l = b ++ d :: t.
Proof.
  revert b. induction l as [|c l IH]; intros b; [done|]. cbn.
  destruct (rpartition d l) as [[b' t']|].
  - intros [= <- <-]. cbn. f_equal. by apply IH.
  - destruct (Ascii.eqb_spec c d) as [->|]; [|done]. by intros [= <- <-].
Qed.

Lemma rpartition_None (d : ascii) (l : list ascii) :
  rpartition d l = None <-> d ∉ l.
Proof.
  induction l as [|c l IH]; [split; [intros _; apply not_elem_of_nil|done]|].
  cbn. destruct (rpartition d l) as [[b t]|].
  - split; [done|]. intros [_ H]%not_elem_of_cons. by apply IH in H.
  - destruct (Ascii.eqb_spec c d) as [->|Hne].
    + split; [done|]. intros [H _]%not_elem_of_cons. done.
    + split; [|done]. intros _. apply not_elem_of_cons. split; [done|].
      by apply IH.
Qed.

Lemma rpartition_head (d c : ascii) (l b t : list ascii) :
  c <> d -> rpartition d (c :: l) = Some (b, t) -> exists b', b = c :: b'.
Proof.
  intros Hne. cbn. destruct (rpartition d l) as [[b' t']|].
  - intros [= <- <-]. by eexists.
  - destruct (Ascii.eqb_spec c d); [done|done].
Qed.

Lemma span_until_app (stop a p : list ascii) (c : ascii) :
  (forall x, x ∈ a -> x ∉ stop) -> c ∈ stop ->
  span_until stop (a ++ c :: p) = (a, c :: p).
Proof.
  intros Ha Hc.
  assert (forall x, x ∈ stop <-> existsb (Ascii.eqb x) stop = true) as Hex.
  { intros x. rewrite existsb_exists. split.
    - intros H. exists x. split; [by apply list_elem_of_In|apply Ascii.eqb_refl].
    - intros (y & Hy & ->%Ascii.eqb_eq). by apply list_elem_of_In. }
  induction a as [|x a IH]; cbn.
  - apply Hex in Hc. by rewrite Hc.
  - destruct (existsb (Ascii.eqb x) stop) eqn:E.
    + apply Hex in E. destruct (Ha x); [by left|done].
    + rewrite IH; [done|]. intros y Hy. apply Ha. by right.
Qed.

Lemma pretty_N_go_chars (Q : ascii -> Prop) (x : N) (s : string) :
  (forall d, Q (pretty_N_char d)) ->
  Forall Q (list_ascii_of_string s) ->
  Forall Q (list_ascii_of_string (pretty_N_go x s)).
Proof.
  intros Hd. revert s. induction (N.lt_wf_0 x) as [x _ IH]. intros s Hs.
  destruct (decide (x = 0)%N) as [->|Hx]; [by rewrite pretty_N_go_0|].
  rewrite pretty_N_go_step by lia. apply IH.
  - apply N.div_lt; lia.
  - cbn. by apply Forall_cons.
Qed.

Lemma str_of_int_chars (Q : ascii -> Prop) (n : Z) :
  (forall d, Q (pretty_N_char d)) -> Q "-"%char ->
  Forall Q (list_ascii_of_string (str_of_int n)).
Proof.
  intros Hd Hm.
  assert (forall p : positive, Forall Q (list_ascii_of_string (pretty (N.pos p))))
    as Hpos.
  { intros p. unfold pretty, pretty_N. rewrite decide_False by done.
    by apply pretty_N_go_chars. }
  unfold str_of_int, pretty, pretty_Z. destruct n as [|p|p].
  - cbn. apply Forall_cons. split; [apply (Hd 0%N)|done].
  - apply Hpos.
  - cbn. apply Forall_cons. split; [done|apply Hpos].
Qed.

Lemma str_of_int_no_separator (n : Z) (x : ascii) :
  x ∈ list_ascii_of_string (str_of_int n) -> x ∉ ["/"; "#"; "?"]%char.
Proof.
  revert x. apply Forall_forall. apply str_of_int_chars.
  - intros d Hin. unfold pretty_N_char in Hin.
    repeat case_match; not_in_list Hin.
  - intros Hin. not_in_list Hin.
Qed.

Lemma target_url_chars self :
  list_ascii_of_string (target_url self)
  = http_prefix ++ target_prefix self ++ list_ascii_of_string (path self).
Proof.
  unfold target_url, target_prefix, http_prefix.
  rewrite !list_ascii_of_string_app. cbn [list_ascii_of_string app].
  by rewrite <- !app_assoc.
Qed.

Lemma splittype_http (z : list ascii) :
  splittype (http_prefix ++ z)
  = (Some (list_ascii_of_string "http"), "/"%char :: "/"%char :: z).
Proof. reflexivity. Qed.

Lemma splittag_http (y : list ascii) :
  splittag (http_prefix ++ y)
  = match rpartition "#"%char y with
    | Some (b, t) => (http_prefix ++ b, Some t)
    | None => (http_prefix ++ y, None)
    end.
Proof.
  unfold splittag. rewrite rpartition_app.
  - by destruct (rpartition "#"%char y) as [[b t]|].
  - intros Hin. unfold http_prefix in Hin. cbn in Hin. not_in_list Hin.
Qed.

(** The constructor of the Request never raises for the URL of
    [proxy_request]: its type is always http. *)
Lemma target_url_has_type self :
  fst (splittype (fst (splittag (unwrap (list_ascii_of_string (target_url self))))))
  = Some (list_ascii_of_string "http").
Proof.
  rewrite target_url_chars, unwrap_http, splittag_http.
  destruct (rpartition _ _) as [[b t]|]; cbn [fst]; by rewrite splittype_http.
Qed.

Lemma target_prefix_clean self x :
  (forall c, c ∈ list_ascii_of_string (target_host self) -> c ∉ ["/"; "#"; "?"]%char) ->
  x ∈ target_prefix self -> x ∉ ["/"; "#"; "?"]%char.
Proof.
  intros Hh. unfold target_prefix. rewrite elem_of_app, elem_of_cons.
  intros [?|[->|?]].
  - by apply Hh.
  - intros Hin. not_in_list Hin.
  - by apply (str_of_int_no_separator (target_port self)).
Qed.

Lemma Request_new_target_url self pd meth :
  (forall c, c ∈ list_ascii_of_string (target_host self) -> c ∉ ["/"; "#"; "?"]%char) ->
  (exists r, path self = String "/"%char r) ->
  Forall (fun c => is_unicode_space c = false) (list_ascii_of_string (path self)) ->
  selector (Request_new (target_url self) pd meth) = cut_fragment (path self)
  /\ ("#"%char ∉ list_ascii_of_string (path self) ->
      full_url (Request_new (target_url self) pd meth) = target_url self
      /\ selector (Request_new (target_url self) pd meth) = path self).
Proof.
  intros Hh [r Hr] Hsp.
  pose proof (fun x => target_prefix_clean self x Hh) as Hclean.
  unfold Request_new, cut_fragment.
  rewrite target_url_chars, unwrap_http.
  assert (rstrip_unicode (target_prefix self ++ list_ascii_of_string (path self))
          = target_prefix self ++ list_ascii_of_string (path self)) as ->.
  { apply rstrip_app_keep; [by rewrite Hr|by apply rstrip_no_space]. }
  rewrite splittag_http, rpartition_app.
  2:{ intros Hin. apply (Hclean _ Hin). do 1 right. by left. }
  unfold splittag.
  destruct (rpartition "#"%char (list_ascii_of_string (path self)))
    as [[b t]|] eqn:E.
  - assert (exists b', b = "/"%char :: b') as [b' ->].
    { rewrite Hr in E. by apply (rpartition_head "#"%char "/"%char _ _ t) in E. }
    cbn beta iota. rewrite splittype_http. unfold splithost.
    rewrite (span_until_app _ _ b' "/"%char); [|exact Hclean|by left].
    split; [done|]. intros Hno. by apply rpartition_None in Hno; rewrite Hno in E.
  - cbn beta iota. rewrite splittype_http. unfold splithost. rewrite Hr.
    cbn [list_ascii_of_string].
    rewrite (span_until_app _ _ _ "/"%char); [|exact Hclean|by left].
    rewrite Ascii.eqb_refl. cbn [fst selector full_url].
    change (string_of_list_ascii ("/"%char :: ?l))
      with (String "/"%char (string_of_list_ascii l)).
    rewrite string_of_list_ascii_of_string.
    split; [done|]. intros _. split; [|done].
    rewrite <- (string_of_list_ascii_of_string (target_url self)).
    by rewrite target_url_chars, Hr.
Qed.

(** [Request.full_url] and [Request.selector] for a few paths behind
    http://localhost:8000. *)
Example Request_new_examples :
  map (fun p => let r := Request_new ("http://localhost:8000" +:+ p) None "GET" in
                (full_url r, selector r))
      ["/a"; "/a?x=1#"; "/a?x=1#top"; "/a#b#c"; ""; "?x=1"; "foo/bar";
       String "/" (String "a" (String "160" ""))]
  = [("http://localhost:8000/a", "/a");
     ("http://localhost:8000/a?x=1", "/a?x=1");
     ("http://localhost:8000/a?x=1#top", "/a?x=1");
     ("http://localhost:8000/a#b#c", "/a#b");
     ("http://localhost:8000", "");
     ("http://localhost:8000?x=1", "/?x=1");
     ("http://localhost:8000foo/bar", "/bar");
     ("http://localhost:8000/a", "/a")].
Proof. reflexivity. Qed.

Lemma build_request_url self meth pd :
  full_url (build_request self meth pd)
  = full_url (Request_new (target_url self) pd meth)
  /\ selector (build_request self meth pd)
     = selector (Request_new (target_url self) pd meth).
Proof.
  unfold build_request, copy_request_headers.
  by destruct (copy_fold_fields (headers self)
                 (Request_new (target_url self) pd meth)) as (-> & -> & _).
Qed.

(** * The claims of the specification *)

(** C1: every response the proxy writes, for a preflight, a relayed
    answer, an origin HTTP error or a transport error, starts with a status
    line and carries the four CORS headers with their fixed values; this
    holds for every head written and for the one the client reads. *)
Theorem cors_headers_on_every_response env self m :
  handle_command env self = Some m ->
  let w := wfile (run m) in
  (exists code ls rest, w = Head (StatusLine code :: ls) :: rest)
  /\ Forall head_with_cors w
  /\ cors_present (headers_received w).
Proof.
  intros Hm.
  assert (let w := wfile (run m) in
          (exists code ls rest, w = Head (StatusLine code :: ls) :: rest)
          /\ Forall head_with_cors w) as [(code & ls & rest & Hw) Hall].
  { apply handle_command_cases in Hm as [->|[meth ->]].
    - unfold run. rewrite do_OPTIONS_run. cbn. split; [by eexists _, _, _|].
      apply Forall_cons; split; [|done].
      exact (cors_present_after_start env []).
    - apply proxy_request_cors. }
  cbn zeta. split_and!; [by eexists _, _, _|done|].
  rewrite Hw in Hall |- *. by apply Forall_cons in Hall as [H _].
Qed.

Lemma cors_headers_on_every_response_witness :
  let w := wfile (run (do_GET origin_refused get_collections)) in
  (exists code ls rest, w = Head (StatusLine code :: ls) :: rest)
  /\ Forall head_with_cors w
  /\ cors_present (headers_received w).
Proof.
  apply (cors_headers_on_every_response origin_refused get_collections).
  reflexivity.
Defined.

(** C2, as stated, fails: for the 404 of the specification the client
    reads status 404 but the JSON object that the handler builds from the
    code and the reason phrase, not the body the origin sent. *)
Lemma origin_body_is_replaced :
  let w := wfile (run (proxy_request origin_404 get_collections "GET")) in
  status_received w = Some 404
  /\ body_received w
     = Some (error_body (code_points "HTTP 404") (code_points "Not Found"))
  /\ body_received w <> Some not_found_body
  /\ ~ origin_error_passthrough origin_404 get_collections "GET".
Proof.
  assert (wfile (run (proxy_request origin_404 get_collections "GET"))
          = error_answer origin_404 (HTTPError 404 "Not Found" (ReadOk not_found_body)))
    as Hw.
  { by rewrite (proxy_request_urlopen_raises origin_404 get_collections "GET" None
                  (HTTPError 404 "Not Found" (ReadOk not_found_body))). }
  cbn zeta. rewrite Hw. split_and!.
  - reflexivity.
  - reflexivity.
  - vm_compute. discriminate.
  - intros H.
    destruct (H None 404 "Not Found"%string [("content-type", "application/json")]
                not_found_body) as [_ Hb]; [reflexivity | reflexivity | lia |].
    rewrite Hw in Hb. vm_compute in Hb. discriminate.
Qed.

(** C2, amended: when the origin's final answer has a status outside
    200..299, the client reads that status, the CORS headers, Content-Type
    application/json and the JSON object with the entries error = HTTP
    followed by the code and message = the reason phrase; the origin's own
    body is not relayed. *)
Theorem origin_error_is_translated env self meth pd code reason hs body :
  post_data_of env self = Done pd ->
  urlopen env (build_request self meth pd) = http_response code reason hs body ->
  ~ (200 <= code < 300) ->
  let s := run (proxy_request env self meth) in
  wfile s = [Head (error_head env code);
             Body (error_body (code_points ("HTTP " +:+ str_of_int code))
                              (code_points reason))]
  /\ status_received (wfile s) = Some code
  /\ cors_present (headers_received (wfile s))
  /\ ("Content-Type", "application/json") ∈ headers_received (wfile s)
  /\ body_received (wfile s)
     = Some (error_body (code_points ("HTTP " +:+ str_of_int code))
                        (code_points reason))
  /\ contacted s = [build_request self meth pd].
Proof.
  intros Hpd Hopen Hcode. cbn zeta.
  assert (http_response code reason hs body
          = Raises (HTTPError code reason (ReadOk body))) as Hraise.
  { unfold http_response.
    destruct (200 <=? code) eqn:E1, (code <? 300) eqn:E2; try reflexivity.
    apply Z.leb_le in E1. apply Z.ltb_lt in E2. lia. }
  rewrite Hraise in Hopen.
  rewrite (proxy_request_urlopen_raises _ _ _ _ _ Hpd Hopen).
  cbn [wfile contacted error_answer status_received body_received body_bytes].
  split_and!; [done|done| | |by rewrite app_nil_r|done].
  - apply (error_head_cors env code).
  - cbn. do 6 right. by left.
Qed.

Lemma origin_error_is_translated_witness :
  let s := run (proxy_request origin_404 get_collections "GET") in
  wfile s = [Head (error_head origin_404 404);
             Body (error_body (code_points ("HTTP " +:+ str_of_int 404))
                              (code_points "Not Found"))]
  /\ status_received (wfile s) = Some 404
  /\ cors_present (headers_received (wfile s))
  /\ ("Content-Type", "application/json") ∈ headers_received (wfile s)
  /\ body_received (wfile s)
     = Some (error_body (code_points ("HTTP " +:+ str_of_int 404))
                        (code_points "Not Found"))
  /\ contacted s = [build_request get_collections "GET" None].
Proof.
  apply (origin_error_is_translated origin_404 get_collections "GET" None 404
           "Not Found" [("content-type", "application/json")] not_found_body);
    [reflexivity | reflexivity | lia].
Defined.

(** C3: an OPTIONS request, whatever its path, headers and body, is
    dispatched to [do_OPTIONS], which answers with status 200, the CORS
    headers and no body, and never contacts the origin. *)
Theorem preflight_is_answered_locally env self :
  command self = "OPTIONS" ->
  exists m, handle_command env self = Some m
    /\ result m = Done tt
    /\ wfile (run m) = [Head (response_start env 200 ++ cors_lines)]
    /\ status_received (wfile (run m)) = Some 200
    /\ body_received (wfile (run m)) = Some []
    /\ contacted (run m) = [].
Proof.
  intros Hc. exists (do_OPTIONS env). unfold handle_command.
  rewrite Hc, decide_True by done. by split_and!.
Qed.

Lemma preflight_is_answered_locally_witness :
  exists m, handle_command origin_200 options_request = Some m
    /\ result m = Done tt
    /\ wfile (run m) = [Head (response_start origin_200 200 ++ cors_lines)]
    /\ status_received (wfile (run m)) = Some 200
    /\ body_received (wfile (run m)) = Some []
    /\ contacted (run m) = [].
Proof. apply (preflight_is_answered_locally origin_200 options_request). reflexivity. Defined.

(** C4, as stated, fails: [add_header] stores a header under the
    capitalized form of its name, so X-API-Key leaves as X-api-key (and the
    X-Custom of the specification as X-custom) and the outbound mapping has
    no entry under the inbound name.  Authorization, which is its own
    capitalized form, passes unchanged, and Host is dropped. *)
Lemma header_name_is_capitalized :
  let out := req_headers (build_request get_with_api_key "GET" None) in
  out !! "X-API-Key" = None
  /\ out !! "X-api-key" = Some "k3y"
  /\ out !! "Authorization" = Some "Bearer t0ken"
  /\ out !! "Host" = None
  /\ ~ outbound_headers_unchanged get_with_api_key "GET" None.
Proof.
  cbn zeta. rewrite !build_request_lookup. split_and!; [reflexivity..|].
  intros H. destruct (H "X-API-Key" "k3y") as [_ H2].
  rewrite build_request_lookup in H2.
  assert (last_forwarded "X-API-Key" (headers get_with_api_key) = None) as Hn
    by reflexivity.
  rewrite Hn in H2. discriminate H2.
  split; [|not_excluded].
  cbn. do 2 right. by left.
Qed.

(** C4, amended: the outbound header mapping has an entry exactly for the
    inbound headers whose name is not host, origin or referer
    (case-insensitively), each under the capitalized form of its name
    (first character in upper case, the others in lower case) and with its
    value unchanged, the value being that of the last inbound header of
    that name when there are several; no entry has a name that is host,
    origin or referer up to case. *)
Theorem forwarded_headers (self : CORSProxyHandler) (meth : string)
    (pd : option bytes) :
  let out := req_headers (build_request self meth pd) in
  (forall k v, out !! k = Some v ->
     exists n, (n, v) ∈ headers self
               /\ (lower n ∉ excluded_request_headers) /\ k = capitalize n)
  /\ (forall n v, (n, v) ∈ headers self ->
        lower n ∉ excluded_request_headers -> is_Some (out !! capitalize n))
  /\ (forall pre n v post,
        headers self = pre ++ (n, v) :: post ->
        lower n ∉ excluded_request_headers ->
        (forall n' v', (n', v') ∈ post -> lower n' <> lower n) ->
        out !! capitalize n = Some v)
  /\ (forall k, lower k ∈ excluded_request_headers -> out !! k = None).
Proof.
  cbn zeta. split_and!.
  - intros k v. rewrite build_request_lookup.
    intros (n & ? & ? & ?)%last_forwarded_Some. by exists n.
  - intros n v Hin Hn. rewrite build_request_lookup.
    apply list_elem_of_split in Hin as (pre & post & Hs). rewrite Hs.
    rewrite last_forwarded_app. cbn [last_forwarded].
    destruct (last_forwarded (capitalize n) post); [done|].
    by rewrite decide_False, decide_True by done.
  - intros pre n v post Hs Hn Hpost. rewrite build_request_lookup, Hs.
    rewrite last_forwarded_app. cbn [last_forwarded].
    rewrite (last_forwarded_None (capitalize n) post).
    + by rewrite decide_False, decide_True by done.
    + intros n' v' Hin Hc. apply (Hpost n' v' Hin). by apply capitalize_eq_iff.
  - intros k Hk. rewrite build_request_lookup.
    destruct (last_forwarded k (headers self)) as [v|] eqn:E; [|done].
    apply last_forwarded_Some in E as (n & _ & Hn & <-).
    by rewrite lower_capitalize in Hk.
Qed.

Lemma forwarded_headers_witness :
  req_headers (build_request get_collections "GET" None) !! capitalize "X-Custom"
  = Some "w".
Proof.
  apply (proj1 (proj2 (proj2 (forwarded_headers get_collections "GET" None)))
           [("Host", "x"); ("Origin", "y"); ("Referer", "z")] "X-Custom" "w" []).
  - reflexivity.
  - not_excluded.
  - intros n' v' Hin. by apply elem_of_nil in Hin.
Defined.

(** C6, evaluated where the code departs from it: the origin sends the
    head of a 200 and the connection is reset while the body is read.  The
    head of the 200 has been flushed, so the handler of line 122 writes its
    500 head and JSON object after it: the client reads status 200, and
    what follows is not the JSON error body. *)
Lemma failure_after_head_is_not_500 :
  let s := run (proxy_request origin_reset_in_body get_collections "GET") in
  wfile s
  = [Head (relayed_head origin_reset_in_body
             {| getcode := 200;
                response_headers := [("content-type", "application/json")];
                response_read :=
                  ReadRaises (code_points "[Errno 104] Connection reset by peer") |});
     Head (error_head origin_reset_in_body 500);
     Body (error_body (code_points "Proxy Error")
                      (code_points "[Errno 104] Connection reset by peer"))]
  /\ status_received (wfile s) = Some 200
  /\ status_received (wfile s) <> Some 500
  /\ body_received (wfile s) = None.
Proof.
  cbn zeta. unfold run. rewrite proxy_request_run. cbn. by split_and!.
Qed.

(** C7, as stated, fails: besides the origin's headers and the CORS set,
    the client reads the Server and Date headers that [send_response]
    writes after the status line. *)
Lemma server_and_date_are_added :
  headers_received (wfile (run (proxy_request origin_200 get_collections "GET")))
  = [("Server", "BaseHTTP/0.6 Python/3.12.3");
     ("Date", "Tue, 03 Nov 2026 09:30:00 GMT");
     ("Access-Control-Allow-Origin", "*");
     ("Access-Control-Allow-Methods", "GET, POST, PUT, DELETE, OPTIONS");
     ("Access-Control-Allow-Headers", "Content-Type, Authorization, X-Requested-With");
     ("Access-Control-Max-Age", "86400");
     ("content-type", "application/json");
     ("x-chroma-version", "0.5.0")]
  /\ ~ client_headers_are_origin_plus_cors origin_200 get_collections "GET".
Proof.
  assert (headers_received
            (wfile (run (proxy_request origin_200 get_collections "GET")))
          = [("Server", "BaseHTTP/0.6 Python/3.12.3");
             ("Date", "Tue, 03 Nov 2026 09:30:00 GMT");
             ("Access-Control-Allow-Origin", "*");
             ("Access-Control-Allow-Methods", "GET, POST, PUT, DELETE, OPTIONS");
             ("Access-Control-Allow-Headers",
              "Content-Type, Authorization, X-Requested-With");
             ("Access-Control-Max-Age", "86400");
             ("content-type", "application/json");
             ("x-chroma-version", "0.5.0")]) as Hw.
  { by rewrite (proxy_request_success origin_200 get_collections "GET" None
                  items_response items_body). }
  split; [exact Hw|]. intros H.
  specialize (H None 200 (response_headers items_response) items_body
                eq_refl eq_refl ("Server", "BaseHTTP/0.6 Python/3.12.3")%string).
  rewrite Hw in H. destruct H as [H _].
  destruct H as [H|H]; [by left| |].
  - vm_compute in H.
    not_in_list H.
  - unfold cors_headers in H.
    not_in_list H.
Qed.

(** C7, amended: for a relayed 2xx answer the client's headers are, in
    this order, the Server and Date headers of [send_response], the four
    CORS headers, and the origin's headers without those named
    transfer-encoding or connection (case-insensitively), each of the
    others with its name and value unchanged. *)
Theorem relayed_headers_of_success env self meth pd code hs body :
  post_data_of env self = Done pd ->
  urlopen env (build_request self meth pd)
    = Returns {| getcode := code; response_headers := hs;
                 response_read := ReadOk body |} ->
  headers_received (wfile (run (proxy_request env self meth)))
  = [("Server", version_string env); ("Date", date_time_string env)]
    ++ cors_headers ++ relayed_headers hs
  /\ (forall h, h ∈ relayed_headers hs
                <-> h ∈ hs /\ lower (fst h) <> "transfer-encoding"
                    /\ lower (fst h) <> "connection").
Proof.
  intros Hpd Hopen.
  rewrite (proxy_request_success _ _ _ _ _ body Hpd Hopen) by done.
  split.
  - cbn [wfile]. unfold relayed_head. cbn [getcode response_headers].
    destruct (header_lines_start env code
                (cors_lines ++ map header_line (relayed_headers hs))) as [-> E].
    cbn [headers_received]. rewrite E, header_lines_app. unfold cors_lines.
    by rewrite !header_lines_map.
  - intros h. unfold relayed_headers. rewrite list_elem_of_filter.
    unfold excluded_response_headers.
    rewrite !not_elem_of_cons. pose proof (not_elem_of_nil (lower h.1)).
    tauto.
Qed.

Lemma relayed_headers_of_success_witness :
  headers_received (wfile (run (proxy_request origin_200 get_collections "GET")))
  = [("Server", version_string origin_200); ("Date", date_time_string origin_200)]
    ++ cors_headers ++ relayed_headers (response_headers items_response)
  /\ (forall h, h ∈ relayed_headers (response_headers items_response)
                <-> h ∈ response_headers items_response
                    /\ lower (fst h) <> "transfer-encoding"
                    /\ lower (fst h) <> "connection").
Proof.
  apply (relayed_headers_of_success origin_200 get_collections "GET" None 200
           (response_headers items_response) items_body); reflexivity.
Defined.

(** C8, as stated, fails: of two inbound Accept headers only the value of
    the second is in the outbound request. *)
Lemma earlier_duplicate_is_lost :
  let out := req_headers (build_request get_with_duplicates "GET" None) in
  out !! "Accept" = Some "application/json"
  /\ (forall k, out !! k <> Some "text/html")
  /\ ~ duplicates_preserved get_with_duplicates "GET" None.
Proof.
  cbn zeta.
  assert (forall k, req_headers (build_request get_with_duplicates "GET" None) !! k
                    <> Some "text/html"%string) as Hlost.
  { intros k. rewrite build_request_lookup. intros E.
    pose proof E as (n & Hin & _ & <-)%last_forwarded_Some.
    apply elem_of_cons in Hin as [[= ->]|Hin]; [discriminate E|].
    apply elem_of_cons in Hin as [[=]|Hin]. by apply elem_of_nil in Hin. }
  split_and!.
  - by rewrite build_request_lookup.
  - exact Hlost.
  - intros H. destruct (H "Accept" "text/html") as (k & _ & Hk).
    + by left.
    + not_excluded.
    + by apply (Hlost k).
Qed.

(** C8, amended: when the inbound request repeats a header name (up to
    case) that is not excluded, the outbound request has one entry for it,
    under the capitalized name, holding the value of the last of the
    repeated headers; the earlier values are overwritten. *)
Theorem last_duplicate_wins (self : CORSProxyHandler) (meth : string)
    (pd : option bytes) (n : string) :
  lower n ∉ excluded_request_headers ->
  let out := req_headers (build_request self meth pd) in
  out !! capitalize n = Message_get n (reverse (headers self))
  /\ (forall k, lower k = lower n -> is_Some (out !! k) -> k = capitalize n).
Proof.
  intros Hn. cbn zeta. split.
  - rewrite build_request_lookup. by apply last_forwarded_get.
  - intros k Hk [v Hv]. rewrite build_request_lookup in Hv.
    apply last_forwarded_Some in Hv as (n' & _ & _ & <-).
    apply capitalize_eq_iff. by rewrite lower_capitalize in Hk.
Qed.

Lemma last_duplicate_wins_witness :
  let out := req_headers (build_request get_with_duplicates "GET" None) in
  out !! capitalize "accept" = Message_get "accept" (reverse (headers get_with_duplicates))
  /\ (forall k, lower k = lower "accept" -> is_Some (out !! k) -> k = capitalize "accept").
Proof.
  apply (last_duplicate_wins get_with_duplicates "GET" None "accept").
  not_excluded.
Defined.

(** C10, as stated, fails: an empty Content-Length value is no decimal
    integer, yet the guard of line 69 skips the conversion and the request
    is forwarded without a body. *)
Lemma empty_content_length_is_forwarded :
  let s := run (proxy_request origin_200 (post_with_length "") "POST") in
  Message_get "Content-Length" (headers (post_with_length "")) = Some ""
  /\ py_int "" = None
  /\ contacted s = [build_request (post_with_length "") "POST" None]
  /\ status_received (wfile s) = Some 200
  /\ ~ bad_content_length_is_500 origin_200 (post_with_length "") "POST".
Proof.
  assert (run (proxy_request origin_200 (post_with_length "") "POST")
          = {| headers_buffer := [];
               wfile := [Head (relayed_head origin_200 items_response); Body items_body];
               contacted := [build_request (post_with_length "") "POST" None] |}) as Hs.
  { by apply proxy_request_success. }
  cbn zeta. rewrite Hs. split_and!; [reflexivity..|].
  intros H. destruct (H ""%string) as (Hc & _); [reflexivity..|].
  rewrite Hs in Hc. discriminate Hc.
Qed.

(** C10, amended: when the Content-Length value is not empty and [int]
    refuses it, the proxy contacts no origin and answers with status 500,
    Content-Type application/json and the JSON object with the entries
    error = Proxy Error and message = the text of the conversion error. *)
Theorem bad_content_length_is_not_forwarded env self meth v :
  Message_get "Content-Length" (headers self) = Some v ->
  v <> "" ->
  py_int v = None ->
  let s := run (proxy_request env self meth) in
  contacted s = []
  /\ wfile s = [Head (error_head env 500);
                Body (error_body (code_points "Proxy Error") (int_error_text env v))]
  /\ status_received (wfile s) = Some 500
  /\ ("Content-Type", "application/json") ∈ headers_received (wfile s)
  /\ body_received (wfile s)
     = Some (error_body (code_points "Proxy Error") (int_error_text env v)).
Proof.
  intros Hget Hne Hint. cbn zeta.
  assert (post_data_of env self = Raised (OtherException (int_error_text env v))) as Hpd.
  { unfold post_data_of, read_post_data.
    by rewrite Hget, decide_False, Hint by done. }
  unfold run. rewrite proxy_request_run, Hpd. cbn.
  split_and!; [done..| |by rewrite app_nil_r].
  do 6 right. by left.
Qed.

Lemma bad_content_length_is_not_forwarded_witness :
  let s := run (proxy_request origin_200 (post_with_length "12abc") "POST") in
  contacted s = []
  /\ wfile s = [Head (error_head origin_200 500);
                Body (error_body (code_points "Proxy Error")
                                 (int_error_text origin_200 "12abc"))]
  /\ status_received (wfile s) = Some 500
  /\ ("Content-Type", "application/json") ∈ headers_received (wfile s)
  /\ body_received (wfile s)
     = Some (error_body (code_points "Proxy Error")
                        (int_error_text origin_200 "12abc")).
Proof.
  apply (bad_content_length_is_not_forwarded origin_200 (post_with_length "12abc")
           "POST" "12abc"); [reflexivity | discriminate | reflexivity].
Defined.

(** C5, as stated, fails: urllib cuts the URL it is given at the last
    hash sign, so for a request-target with a fragment the origin is asked
    for the part before it, not for the path as received; and the base
    class has already reduced leading slashes before the handler sees the
    path. *)
Lemma fragment_is_not_forwarded :
  path get_with_fragment = "/api/v1/collections?limit=10#top"
  /\ selector (build_request get_with_fragment "GET" None)
     = "/api/v1/collections?limit=10"
  /\ parse_path "//api/v1/collections" = "/api/v1/collections"
  /\ ~ request_target_is_verbatim get_with_fragment "GET" None.
Proof.
  assert (selector (build_request get_with_fragment "GET" None)
          = "/api/v1/collections?limit=10"%string) as Hsel.
  { destruct (build_request_url get_with_fragment "GET" None) as [_ ->].
    reflexivity. }
  split_and!; [reflexivity|exact Hsel|reflexivity|].
  intros [_ H]. rewrite Hsel in H. discriminate H.
Qed.

(** C5, amended: every Request that the handler hands to [urlopen] has the
    method of the inbound request and is built from the URL
    http://host:port followed by [self.path].  When the target host has no
    slash, hash or question mark and [self.path] starts with a slash and
    has no white space, the request-target urllib sends for it is
    [self.path] up to its last hash sign; without a hash sign it is
    [self.path] itself and the URL of the Request is exactly that URL.
    [self.path] is the request-target received, except that two or more
    leading slashes have been reduced to one.  When [urlopen] returns a
    complete 2xx answer, the client reads its status code and exactly its
    body. *)
Theorem forwarded_request_target env self meth :
  let s := run (proxy_request env self meth) in
  (forall req, req ∈ contacted s ->
     method req = meth
     /\ ((forall c, c ∈ list_ascii_of_string (target_host self) ->
                    c ∉ ["/"; "#"; "?"]%char) ->
         (exists r, path self = String "/"%char r) ->
         Forall (fun c => is_unicode_space c = false)
                (list_ascii_of_string (path self)) ->
         selector req = cut_fragment (path self)
         /\ ("#"%char ∉ list_ascii_of_string (path self) ->
             full_url req = "http://" +:+ target_host self +:+ ":"
                            +:+ str_of_int (target_port self) +:+ path self
             /\ selector req = path self)))
  /\ (forall pd code hs body,
        post_data_of env self = Done pd ->
        urlopen env (build_request self meth pd)
          = Returns {| getcode := code; response_headers := hs;
                       response_read := ReadOk body |} ->
        contacted s = [build_request self meth pd]
        /\ status_received (wfile s) = Some code
        /\ body_received (wfile s) = Some body)
  /\ (forall t, (forall r, t <> "//" +:+ r) -> parse_path t = t)
  /\ (forall r, parse_path ("//" +:+ r) = "/" +:+ lstrip_slash r).
Proof.
  cbn zeta. split_and!.
  - intros req (pd & _ & ->)%proxy_request_contacts.
    split; [apply build_request_fields|]. intros Hh Hr Hsp.
    destruct (build_request_url self meth pd) as [-> ->].
    apply (Request_new_target_url self pd meth Hh Hr Hsp).
  - intros pd code hs body Hpd Hopen.
    rewrite (proxy_request_success _ _ _ _ _ body Hpd Hopen) by done.
    cbn. by rewrite app_nil_r.
  - intros t Ht. unfold parse_path. destruct t as [|c t]; [done|].
    destruct c as [[] [] [] [] [] [] [] []]; try done.
    destruct t as [|c' t]; [done|].
    destruct c' as [[] [] [] [] [] [] [] []]; try done.
    by destruct (Ht t).
  - done.
Qed.

Lemma forwarded_request_target_witness :
  selector (build_request get_collections "GET" None)
  = cut_fragment (path get_collections)
  /\ ("#"%char ∉ list_ascii_of_string (path get_collections) ->
      full_url (build_request get_collections "GET" None)
      = "http://" +:+ target_host get_collections +:+ ":"
        +:+ str_of_int (target_port get_collections) +:+ path get_collections
      /\ selector (build_request get_collections "GET" None)
         = path get_collections).
Proof.
  apply (proj1 (forwarded_request_target origin_200 get_collections "GET")
           (build_request get_collections "GET" None)).
  - rewrite (proxy_request_success origin_200 get_collections "GET" None
               items_response items_body); [by left | reflexivity..].
  - intros c Hin. vm_compute in Hin. intros Hs.
    repeat (apply elem_of_cons in Hin as [->|Hin]; [not_in_list Hs|]).
    by apply elem_of_nil in Hin.
  - by eexists.
  - by repeat (apply Forall_cons; split; [reflexivity|]).
Defined.

Example target_url_of_get_collections :
  full_url (build_request get_collections "GET" None)
  = "http://localhost:8000/api/v1/collections?limit=10"
  /\ selector (build_request get_collections "GET" None)
     = "/api/v1/collections?limit=10".
Proof.
  destruct (build_request_url get_collections "GET" None) as [-> ->].
  by split.
Qed.


(** * Further properties of the code *)

(** ** The request body *)

Lemma py_int_empty : py_int "" = None.
Proof. reflexivity. Qed.


Lemma post_data_of_present env self v n :
  Message_get "Content-Length" (headers self) = Some v ->
  py_int v = Some n ->
  post_data_of env self
  = match rfile_read env n with
    | ReadOk b => Done (Some b)
    | ReadRaises text => Raised (OtherException text)
    end.
Proof.
  intros Hget Hint. unfold post_data_of, read_post_data. rewrite Hget.
  destruct (decide (v = "")) as [->|_]; [by rewrite py_int_empty in Hint|].
  rewrite Hint. unfold bind, lift_read. by destruct (rfile_read env n).
Qed.



(** X2: when reading the announced body from the client raises, the
    origin is not contacted and the client is answered with status 500 and
    the JSON error object holding the text of the exception. *)
Theorem client_stream_failure_is_500 env self meth v n text :
  Message_get "Content-Length" (headers self) = Some v ->
  py_int v = Some n ->
  rfile_read env n = ReadRaises text ->
  let s := run (proxy_request env self meth) in
  contacted s = []
  /\ wfile s = [Head (error_head env 500);
                Body (error_body (code_points "Proxy Error") text)]
  /\ status_received (wfile s) = Some 500.
Proof.
  intros Hget Hint Hread. cbn zeta.
  pose proof (post_data_of_present env self v n Hget Hint) as Hpd.
  rewrite Hread in Hpd. unfold run. rewrite proxy_request_run, Hpd. done.
Qed.

Lemma client_stream_failure_is_500_witness :
  let s := run (proxy_request (client_resets origin_200)
                  (post_with_length "2") "POST") in
  contacted s = []
  /\ wfile s = [Head (error_head (client_resets origin_200) 500);
                Body (error_body (code_points "Proxy Error")
                        (code_points "[Errno 104] Connection reset by peer"))]
  /\ status_received (wfile s) = Some 500.
Proof.
  apply (client_stream_failure_is_500 (client_resets origin_200)
           (post_with_length "2") "POST" "2" 2); reflexivity.
Defined.



(** ** Dispatch *)

Lemma handle_command_method env self m :
  handle_command env self = Some m ->
  (command self = "OPTIONS" /\ m = do_OPTIONS env)
  \/ (command self <> "OPTIONS" /\ m = proxy_request env self (command self)).
Proof.
  unfold handle_command.
  destruct (decide (command self = "OPTIONS")) as [E|E];
    [intros [= <-]; by left|].
  repeat (destruct (decide _) as [->|?];
          [intros [= <-]; right; by split|]).
  done.
Qed.

(** X4: whichever of GET, POST, PUT and DELETE comes in, the Request
    that the handler hands to [urlopen] has the same method (what urllib
    sends by itself after a redirect is not the handler's); for an OPTIONS
    request [urlopen] is not called. *)
Theorem method_is_preserved env self m req :
  handle_command env self = Some m ->
  req ∈ contacted (run m) ->
  method req = command self /\ command self <> "OPTIONS".
Proof.
  intros [[_ ->]|[Hc ->]]%handle_command_method Hin.
  - by apply elem_of_nil in Hin.
  - apply proxy_request_contacts in Hin as (pd & _ & ->).
    split; [|done]. apply build_request_fields.
Qed.

Lemma method_is_preserved_witness :
  method (build_request (post_with_length "") "POST" None)
  = command (post_with_length "")
  /\ command (post_with_length "") <> "OPTIONS".
Proof.
  apply (method_is_preserved origin_200 (post_with_length "")
           (do_POST origin_200 (post_with_length ""))).
  - reflexivity.
  - unfold do_POST.
    rewrite (proxy_request_success origin_200 (post_with_length "") "POST" None
               items_response items_body); [by left | reflexivity..].
Defined.



(** ** The shape of what is written *)

Lemma error_answer_body env e : exists b, body_received (error_answer env e) = Some b.
Proof. destruct e; cbn; by eexists. Qed.

(** X6: when [proxy_request] returns nothing is left in the header
    buffer, and what was written is one head followed by one body, except
    in one case: the origin's answer arrived and reading its body raised.
    Then, and only then, a second head stands where the body should be. *)
Theorem response_is_malformed_iff env self meth :
  let s := run (proxy_request env self meth) in
  headers_buffer s = []
  /\ (body_received (wfile s) = None <->
      exists pd r text,
        post_data_of env self = Done pd
        /\ urlopen env (build_request self meth pd) = Returns r
        /\ response_read r = ReadRaises text)
  /\ (body_received (wfile s) <> None ->
      exists ls b, wfile s = [Head ls; Body b]).
Proof.
  cbn zeta. unfold run. rewrite proxy_request_run. cbn [snd].
  destruct (post_data_of env self) as [pd|e]; cbn [headers_buffer wfile].
  - destruct (urlopen env (build_request self meth pd)) as [r|e] eqn:Hopen.
    + destruct (response_read r) as [b|text] eqn:Hread.
      * split_and!; [done| |by eexists _, _].
        split; [done|]. intros (pd' & r' & text' & [= <-] & Ho & Hr).
        rewrite Hopen in Ho. injection Ho as <-. by rewrite Hread in Hr.
      * split_and!; [done| |done].
        split; [|done]. intros _. by exists pd, r, text.
    + split_and!; [done| |destruct e; by eexists _, _].
      split; [by destruct e|]. intros (pd' & r' & text' & [= <-] & Ho & _).
      by rewrite Hopen in Ho.
  - split_and!; [done| |destruct e; by eexists _, _].
    split; [by destruct e|]. by intros (pd' & r' & text' & ? & _).
Qed.

(** X7: the status the client reads is never invented: it is the status of
    the origin's answer, whether [urlopen] returned it or raised it as an
    [HTTPError], or it is 500. *)
Theorem status_is_origin_or_500 env self meth :
  exists c, status_received (wfile (run (proxy_request env self meth))) = Some c
    /\ (c = 500
        \/ exists pd, post_data_of env self = Done pd
             /\ ((exists r, urlopen env (build_request self meth pd) = Returns r
                            /\ getcode r = c)
                 \/ exists reason fp,
                      urlopen env (build_request self meth pd)
                      = Raises (HTTPError c reason fp))).
Proof.
  unfold run. rewrite proxy_request_run. cbn [snd].
  destruct (post_data_of env self) as [pd|e] eqn:Hpd; cbn [wfile].
  - destruct (urlopen env (build_request self meth pd)) as [r|e] eqn:Hopen.
    + exists (getcode r). split; [by destruct (response_read r)|].
      right. exists pd. split; [done|]. left. by exists r.
    + destruct e as [code reason fp|text].
      * exists code. split; [done|]. right. exists pd. split; [done|].
        right. by exists reason, fp.
      * exists 500. split; [done|by left].
  - apply post_data_raises in Hpd as [text ->]. exists 500. split; [done|by left].
Qed.

(** X8: the body of an origin error is read for the log only: when that
    read raises, the exception is dropped and the client still gets the
    origin's status with the JSON error object. *)
Theorem broken_error_body_is_swallowed env self meth pd code reason text :
  post_data_of env self = Done pd ->
  urlopen env (build_request self meth pd)
    = Raises (HTTPError code reason (ReadRaises text)) ->
  let s := run (proxy_request env self meth) in
  result (proxy_request env self meth) = Done tt
  /\ wfile s = [Head (error_head env code);
                Body (error_body (code_points ("HTTP " +:+ str_of_int code))
                                 (code_points reason))]
  /\ status_received (wfile s) = Some code.
Proof.
  intros Hpd Hopen. cbn zeta. split; [apply proxy_request_returns|].
  by rewrite (proxy_request_urlopen_raises _ _ _ _ _ Hpd Hopen).
Qed.

Lemma broken_error_body_is_swallowed_witness :
  let s := run (proxy_request origin_502_broken get_collections "GET") in
  result (proxy_request origin_502_broken get_collections "GET") = Done tt
  /\ wfile s = [Head (error_head origin_502_broken 502);
                Body (error_body (code_points ("HTTP " +:+ str_of_int 502))
                                 (code_points "Bad Gateway"))]
  /\ status_received (wfile s) = Some 502.
Proof.
  apply (broken_error_body_is_swallowed origin_502_broken get_collections "GET"
           None 502 "Bad Gateway" (code_points "IncompleteRead(0 bytes read)"));
    reflexivity.
Defined.

(** ** The headers of the answer *)

Lemma relayed_headers_by_name (n : string) (hs : list header) :
  lower n ∉ excluded_response_headers ->
  filter (fun h => fst h = n) (relayed_headers hs)
  = filter (fun h => fst h = n) hs.
Proof.
  intros Hn. unfold relayed_headers.
  apply list_filter_filter_l. by intros [n' v] [= ->].
Qed.

(** X9: on the way back repeated headers survive: for every name that is
    not hop-by-hop, the headers of that name which the client reads after
    the Server, Date and CORS headers are the origin's headers of that
    name, all of them and in the origin's order. *)
Theorem repeated_response_headers_are_kept env self meth pd code hs body n :
  post_data_of env self = Done pd ->
  urlopen env (build_request self meth pd)
    = Returns {| getcode := code; response_headers := hs;
                 response_read := ReadOk body |} ->
  lower n ∉ excluded_response_headers ->
  filter (fun h => fst h = n)
    (drop 6 (headers_received (wfile (run (proxy_request env self meth)))))
  = filter (fun h => fst h = n) hs.
Proof.
  intros Hpd Hopen Hn.
  rewrite (proxy_request_success _ _ _ _ _ body Hpd Hopen) by done.
  cbn [wfile]. unfold relayed_head. cbn [getcode response_headers].
  destruct (header_lines_start env code
              (cors_lines ++ map header_line (relayed_headers hs))) as [-> E].
  cbn [headers_received]. rewrite E, header_lines_app. unfold cors_lines.
  rewrite !header_lines_map. cbn [app drop cors_headers].
  by apply relayed_headers_by_name.
Qed.

Lemma repeated_response_headers_are_kept_witness :
  filter (fun h => fst h = "Set-Cookie")
    (drop 6 (headers_received
               (wfile (run (proxy_request origin_cookies get_collections "GET")))))
  = filter (fun h => fst h = "Set-Cookie") (response_headers cookies_response).
Proof.
  apply (repeated_response_headers_are_kept origin_cookies get_collections "GET"
           None 200 (response_headers cookies_response) items_body "Set-Cookie");
    [reflexivity | reflexivity | not_excluded].
Defined.

Lemma start_names_not_hop_by_hop env (tl : list header) :
  (forall n v, (n, v) ∈ tl -> lower n ∉ excluded_response_headers) ->
  forall n v,
    (n, v) ∈ [("Server", version_string env); ("Date", date_time_string env)]
             ++ cors_headers ++ tl ->
    lower n ∉ excluded_response_headers.
Proof.
  intros Htl n v Hin. unfold cors_headers in Hin. cbn [app] in Hin.
  do 6 (apply elem_of_cons in Hin as [[= -> ->]|Hin]; [not_excluded|]).
  by apply (Htl n v).
Qed.

Lemma relayed_head_no_hop_by_hop env r : no_hop_by_hop (Head (relayed_head env r)).
Proof.
  unfold relayed_head.
  destruct (header_lines_start env (getcode r)
              (cors_lines ++ map header_line (relayed_headers (response_headers r))))
    as [-> E].
  cbn [no_hop_by_hop]. intros n v Hin.
  change (header_lines (StatusLine ?c :: ?l)) with (header_lines l) in Hin.
  rewrite E, header_lines_app in Hin. unfold cors_lines in Hin.
  rewrite !header_lines_map in Hin.
  apply (start_names_not_hop_by_hop env (relayed_headers (response_headers r))
           ) with (v := v); [|exact Hin].
  intros n' v' Hr. unfold relayed_headers in Hr.
  by apply list_elem_of_filter in Hr as [Hr _].
Qed.

Lemma error_head_no_hop_by_hop env code : no_hop_by_hop (Head (error_head env code)).
Proof.
  unfold error_head.
  destruct (header_lines_start env code
              (cors_lines ++ [HeaderLine "Content-Type" "application/json"]))
    as [-> E].
  cbn [no_hop_by_hop]. intros n v Hin.
  change (header_lines (StatusLine ?c :: ?l)) with (header_lines l) in Hin.
  rewrite E, header_lines_app in Hin. unfold cors_lines in Hin.
  rewrite header_lines_map in Hin.
  apply (start_names_not_hop_by_hop env [("Content-Type", "application/json")]
           ) with (v := v); [|exact Hin].
  intros n' v' Hr. apply elem_of_cons in Hr as [[= -> ->]|Hr]; [not_excluded|].
  by apply elem_of_nil in Hr.
Qed.

Lemma error_answer_no_hop_by_hop env e : Forall no_hop_by_hop (error_answer env e).
Proof.
  destruct e; cbn [error_answer];
    (apply Forall_cons; split; [apply error_head_no_hop_by_hop|]);
    by apply Forall_cons.
Qed.

(** X10: no head that the handler writes, on any of its paths, has a header
    named transfer-encoding or connection in any letter case: those of the
    origin are dropped and the handler adds none. *)
Theorem no_hop_by_hop_header_is_written env self m :
  handle_command env self = Some m ->
  Forall no_hop_by_hop (wfile (run m)).
Proof.
  intros [[_ ->]|[_ ->]]%handle_command_method.
  - unfold run. rewrite do_OPTIONS_run. cbn [snd wfile].
    apply Forall_cons. split; [|done].
    pose proof (error_head_no_hop_by_hop env 200) as H.
    intros n v Hin. apply (H n v). unfold error_head.
    rewrite app_assoc, header_lines_app. apply elem_of_app. by left.
  - unfold run. rewrite proxy_request_run. cbn [snd].
    destruct (post_data_of env self) as [pd|e]; cbn [wfile];
      [|apply error_answer_no_hop_by_hop].
    destruct (urlopen env _) as [r|e]; [|apply error_answer_no_hop_by_hop].
    destruct (response_read r) as [b|text].
    + apply Forall_cons; split; [apply relayed_head_no_hop_by_hop|].
      by apply Forall_cons.
    + apply Forall_cons; split; [apply relayed_head_no_hop_by_hop|].
      apply error_answer_no_hop_by_hop.
Qed.

Lemma no_hop_by_hop_header_is_written_witness :
  Forall no_hop_by_hop (wfile (run (do_GET origin_cookies get_collections))).
Proof.
  apply (no_hop_by_hop_header_is_written origin_cookies get_collections).
  reflexivity.
Defined.

(** X11: whatever the text of the exception, control characters and
    characters outside ASCII included, the bytes of the JSON error body are
    all printable ASCII. *)
Theorem error_body_is_printable_ascii (err msg : pystr) :
  forallb printable (map ascii_of_byte (error_body err msg)) = true.
Proof.
  unfold error_body, encode. rewrite map_map.
  rewrite (map_ext _ id) by (intros c; apply ascii_of_byte_of_ascii).
  rewrite map_id. apply json_dumps2_printable.
Qed.

(** ** Commands the handler has no method for *)

Lemma send_error_501_buffer env (end_hdrs : M unit) cmd page s :
  headers_buffer s = [] ->
  send_error env end_hdrs cmd 501 page s
  = match end_hdrs {| headers_buffer := error_501_head env page;
                      wfile := wfile s; contacted := contacted s |} with
    | (Done _, s') =>
        if (bool_decide (cmd <> "HEAD") && bool_decide (page <> []))%bool
        then wfile_write page s' else (Done tt, s')
    | (Raised e, s') => (Raised e, s')
    end.
Proof.
  intros Hb. unfold send_error.
  assert (bool_decide (200 <= 501 /\ 501 ∉ [204; 205; 304]) = true) as ->.
  { apply bool_decide_eq_true_2. split; [lia|]. intros Hin. not_in_list Hin. }
  cbn [andb]. unfold bind at 1. rewrite send_response_run, Hb.
  unfold bind, send_header, error_501_head. cbn.
  destruct (end_hdrs _) as [[[]|e] s']; [|done].
  by destruct (bool_decide (cmd <> "HEAD") && bool_decide (page <> []))%bool.
Qed.

(** X12: a request whose command is none of OPTIONS, GET, POST, PUT and
    DELETE (PATCH or HEAD, say) is answered by the base class with status
    501; the origin is not contacted, and that answer has none of the CORS
    headers, since the handler adds them in its own methods only. *)
Theorem unsupported_method_is_501_without_cors env self page :
  command self ∉ ["OPTIONS"; "GET"; "POST"; "PUT"; "DELETE"] ->
  let s := run (handle_one_request env self page) in
  status_received (wfile s) = Some 501
  /\ contacted s = []
  /\ headers_received (wfile s)
     = [("Server", version_string env); ("Date", date_time_string env);
        ("Connection", "close"); ("Content-Type", "text/html;charset=utf-8");
        ("Content-Length", str_of_int (Z.of_nat (length page)))]
  /\ (forall n v, (n, v) ∈ cors_headers ->
        Message_get n (headers_received (wfile s)) = None)
  /\ body_received (wfile s)
     = Some (if decide (command self = "HEAD") then [] else page).
Proof.
  intros Hc. cbn zeta.
  assert (handle_command env self = None) as Hnone.
  { unfold handle_command.
    repeat (destruct (decide _) as [E|_];
            [exfalso; apply Hc; rewrite E;
             repeat ((by left) || right)|]).
    done. }
  unfold handle_one_request, run. rewrite Hnone.
  rewrite send_error_501_buffer by done. unfold end_headers. cbn [initial wfile contacted app].
  destruct (decide (command self = "HEAD")) as [Hh|Hh].
  - rewrite (bool_decide_eq_false_2 (command self <> "HEAD")) by (by intros H; apply H).
    cbn. split_and!; [done..| |done].
    intros n v Hin. unfold cors_headers in Hin.
    repeat (apply elem_of_cons in Hin as [[= -> ->]|Hin]; [reflexivity|]).
    by apply elem_of_nil in Hin.
  - rewrite (bool_decide_eq_true_2 (command self <> "HEAD")) by done.
    destruct page as [|b page].
    + cbn. split_and!; [done..| |done].
      intros n v Hin. unfold cors_headers in Hin.
      repeat (apply elem_of_cons in Hin as [[= -> ->]|Hin]; [reflexivity|]).
      by apply elem_of_nil in Hin.
    + rewrite (bool_decide_eq_true_2 (b :: page <> [])) by done.
      cbn. rewrite app_nil_r. split_and!; [done..| |done].
      intros n v Hin. unfold cors_headers in Hin.
      repeat (apply elem_of_cons in Hin as [[= -> ->]|Hin]; [reflexivity|]).
      by apply elem_of_nil in Hin.
Qed.

Lemma unsupported_method_is_501_without_cors_witness :
  let s := run (handle_one_request origin_200 patch_request error_page_501) in
  status_received (wfile s) = Some 501
  /\ contacted s = []
  /\ headers_received (wfile s)
     = [("Server", version_string origin_200); ("Date", date_time_string origin_200);
        ("Connection", "close"); ("Content-Type", "text/html;charset=utf-8");
        ("Content-Length", str_of_int (Z.of_nat (length error_page_501)))]
  /\ (forall n v, (n, v) ∈ cors_headers ->
        Message_get n (headers_received (wfile s)) = None)
  /\ body_received (wfile s)
     = Some (if decide (command patch_request = "HEAD") then [] else error_page_501).
Proof.
  apply (unsupported_method_is_501_without_cors origin_200 patch_request
           error_page_501).
  vm_compute. intros Hin. not_in_list Hin.
Defined.

(** ** The static server of serve.py *)

Lemma serve_end_headers_run s :
  Serve.end_headers s
  = (Done tt, {| headers_buffer := [];
                 wfile := wfile s ++ [Head (headers_buffer s
                                            ++ map header_line Serve.cors_headers)];
                 contacted := contacted s |}).
Proof.
  unfold Serve.end_headers, bind, send_header, end_headers. cbn.
  by rewrite <- !app_assoc.
Qed.

Lemma serve_cors_after (pre : list header) :
  (forall n v, (n, v) ∈ pre -> forall n' v', (n', v') ∈ Serve.cors_headers ->
                                lower n <> lower n') ->
  forall n v, (n, v) ∈ Serve.cors_headers ->
    (n, v) ∈ pre ++ Serve.cors_headers
    /\ Message_get n (pre ++ Serve.cors_headers) = Some v.
Proof.
  intros Hpre n v Hin. split; [apply elem_of_app; by right|].
  rewrite Message_get_app.
  assert (Message_get n pre = None) as ->.
  { induction pre as [|[n' v'] pre IH]; [done|]. cbn.
    rewrite decide_False.
    - apply IH. intros n1 v1 H1. apply (Hpre n1 v1). by right.
    - apply (Hpre n' v' ltac:(by left) n v Hin). }
  unfold Serve.cors_headers in Hin |- *.
  repeat (apply elem_of_cons in Hin as [[= -> ->]|Hin]; [reflexivity|]).
  by apply elem_of_nil in Hin.
Qed.

(** X14: in serve.py the CORS headers are added in [end_headers], so every
    answer of the handler outside the file serving carries the three of
    them with their fixed values: the 200 of OPTIONS and also the 501 that
    the base class gives to any other command, POST included although the
    Allow-Methods value names it. *)
Theorem serve_answers_carry_cors env cmd page m :
  Serve.handle_command env cmd page = Some m ->
  let s := run m in
  status_received (wfile s) = Some (if decide (cmd = "OPTIONS") then 200 else 501)
  /\ (forall n v, (n, v) ∈ Serve.cors_headers ->
        (n, v) ∈ headers_received (wfile s)
        /\ Message_get n (headers_received (wfile s)) = Some v)
  /\ (cmd = "OPTIONS" -> body_received (wfile s) = Some []).
Proof.
  unfold Serve.handle_command. cbn zeta.
  destruct (decide (cmd = "OPTIONS")) as [Hc|Hc].
  - intros [= <-]. unfold run, Serve.do_OPTIONS, bind.
    rewrite send_response_run, serve_end_headers_run. cbn.
    split_and!; [done| |done].
    apply (serve_cors_after [("Server", version_string env);
                             ("Date", date_time_string env)]).
    intros n v Hin n' v' Hin'. unfold Serve.cors_headers in Hin'.
    repeat (apply elem_of_cons in Hin as [[= -> ->]|Hin];
            [repeat (apply elem_of_cons in Hin' as [[= -> ->]|Hin'];
                     [discriminate|]); by apply elem_of_nil in Hin'|]).
    by apply elem_of_nil in Hin.
  - destruct (decide (cmd = "GET" \/ cmd = "HEAD")) as [Hg|Hg]; [done|].
    intros [= <-]. unfold run.
    rewrite send_error_501_buffer by done. rewrite serve_end_headers_run.
    assert (forall n v,
              (n, v) ∈ Serve.cors_headers ->
              (n, v) ∈ header_lines (tail (error_501_head env page))
                       ++ Serve.cors_headers
              /\ Message_get n (header_lines (tail (error_501_head env page))
                                ++ Serve.cors_headers) = Some v) as Hcors.
    { apply serve_cors_after.
      intros n v Hin n' v' Hin'. unfold Serve.cors_headers in Hin'. cbn in Hin.
      repeat (apply elem_of_cons in Hin as [[= -> ->]|Hin];
              [repeat (apply elem_of_cons in Hin' as [[= -> ->]|Hin'];
                       [discriminate|]); by apply elem_of_nil in Hin'|]).
      by apply elem_of_nil in Hin. }
    destruct (bool_decide (cmd <> "HEAD") && bool_decide (page <> []))%bool;
      cbn; (split_and!; [done|exact Hcors|done]).
Qed.

Lemma serve_answers_carry_cors_witness :
  let s := run (send_error origin_200 Serve.end_headers "POST" 501 error_page_501) in
  status_received (wfile s) = Some (if decide ("POST" = "OPTIONS") then 200 else 501)
  /\ (forall n v, (n, v) ∈ Serve.cors_headers ->
        (n, v) ∈ headers_received (wfile s)
        /\ Message_get n (headers_received (wfile s)) = Some v)
  /\ ("POST" = "OPTIONS" -> body_received (wfile s) = Some []).
Proof.
  apply (serve_answers_carry_cors origin_200 "POST" error_page_501). reflexivity.
Defined.

(** ** What the excluded headers cannot do *)

Lemma foldl_copy_header_kept (hs : list header) (req : Request) :
  foldl copy_header req hs
  = foldl copy_header req
      (filter (fun h => lower (fst h) ∉ excluded_request_headers) hs).
Proof.
  revert req. induction hs as [|[n v] hs IH]; intros req; [done|].
  rewrite filter_cons. cbn [fst foldl].
  destruct (decide (lower n ∉ excluded_request_headers)) as [Hk|Hk].
  - cbn [foldl]. apply IH.
  - rewrite IH. f_equal. unfold copy_header.
    destruct (decide (lower n ∈ excluded_request_headers)); [done|].
    by destruct Hk.
Qed.

(** X16: the Host, Origin and Referer headers of the client have no
    influence on the request that goes out: two inbound requests for the
    same target and path whose other headers agree lead to the same
    outbound request, header mapping included. *)
Theorem excluded_headers_have_no_influence (self self' : CORSProxyHandler)
    (meth : string) (pd : option bytes) :
  target_host self' = target_host self ->
  target_port self' = target_port self ->
  path self' = path self ->
  filter (fun h => lower (fst h) ∉ excluded_request_headers) (headers self')
  = filter (fun h => lower (fst h) ∉ excluded_request_headers) (headers self) ->
  build_request self' meth pd = build_request self meth pd.
Proof.
  intros Hh Hp Hpath Hf. unfold build_request, copy_request_headers, target_url.
  rewrite Hh, Hp, Hpath.
  rewrite (foldl_copy_header_kept (headers self')),
          (foldl_copy_header_kept (headers self)).
  by rewrite Hf.
Qed.

Lemma excluded_headers_have_no_influence_witness :
  build_request get_collections_bare "GET" None
  = build_request get_collections "GET" None.
Proof.
  apply (excluded_headers_have_no_influence get_collections get_collections_bare
           "GET" None); reflexivity.
Defined.
